(** * simclient: Identity References, policy merging, Policy Container and
      the simulated dispatch client

    A shallow embedding of [simclient/client.py] and [simclient/policy.py].

    Python [str] values are modelled as [string] (their ASCII fragment),
    Python exceptions as the constructors of [exn], and a call that may
    raise as a value of [result].  The AWS side (IAM, Organizations, STS,
    botocore metadata) is a record of responses, [ClientMaker]; the
    requests the code sends to it are recorded in a trace of [event]s. *)

From Stdlib Require Import String Ascii List Bool Arith ZArith Lia DecimalString.
Import ListNotations.
Open Scope string_scope.

(* ================================================================== *)
(** * Python outcomes *)

(** The exception classes the two modules can raise or let through.
    [ClientError] is botocore's client-side service error; [Exception_]
    is a bare [Exception()]. *)
Inductive exn : Type :=
| IndexError
| TypeError
| KeyError (key : string)
| NotImplementedError
| AttributeError
| JSONDecodeError
| ClientError (code : string)
| UnknownServiceError
| Exception_.

(** Outcome of evaluating a Python expression or call. *)
Inductive result (A : Type) : Type :=
| Ok (a : A)
| Raise (e : exn).
Arguments Ok {A} a.
Arguments Raise {A} e.

Definition rbind {A B} (c : result A) (k : A -> result B) : result B :=
  match c with
  | Ok a => k a
  | Raise e => Raise e
  end.

Notation "x <- c ;; k" := (rbind c (fun x => k))
  (at level 61, c at next level, right associativity).

(** [except ClientError]: does the raised exception belong to that class? *)
Definition is_ClientError (e : exn) : bool :=
  match e with
  | ClientError _ => true
  | _ => false
  end.

(** [try: body / except ClientError: handler]. *)
Definition try_except_ClientError {A} (body handler : result A) : result A :=
  match body with
  | Ok a => Ok a
  | Raise e => if is_ClientError e then handler else Raise e
  end.

(** [try: ... finally: fin].  The [finally] suite runs whatever the outcome
    of the protected statement was; when the suite itself raises, that
    exception replaces the pending return value or exception. *)
Definition try_finally {A} (protected : result A) (fin : result unit) : result A :=
  match fin with
  | Raise e => Raise e
  | Ok _ => protected
  end.

(** [l[i] = v] for a non-negative index: [IndexError] out of range. *)
Fixpoint setitem {A} (l : list A) (i : nat) (v : A) : result (list A) :=
  match l, i with
  | [], _ => Raise IndexError
  | _ :: t, O => Ok (v :: t)
  | h :: t, S j => t' <- setitem t j v ;; Ok (h :: t')
  end.

(** [l[i]] for a non-negative index. *)
Definition getitem {A} (l : list A) (i : nat) : result A :=
  match nth_error l i with
  | Some a => Ok a
  | None => Raise IndexError
  end.

(* ================================================================== *)
(** * Python string operations used by the code *)

(** [s.split(sep)] for a one-character separator: every occurrence cuts,
    empty pieces are kept, and the result is never empty. *)
Fixpoint split (sep : ascii) (s : string) : list string :=
  match s with
  | EmptyString => [EmptyString]
  | String c rest =>
      if Ascii.eqb c sep then EmptyString :: split sep rest
      else match split sep rest with
           | h :: t => String c h :: t
           | [] => [String c EmptyString]
           end
  end.

(** [sep.join(l)]. *)
Fixpoint join (sep : string) (l : list string) : string :=
  match l with
  | [] => EmptyString
  | [x] => x
  | x :: rest => x ++ sep ++ join sep rest
  end.

(** [c in s] for a one-character [c]. *)
Fixpoint contains (c : ascii) (s : string) : bool :=
  match s with
  | EmptyString => false
  | String d rest => Ascii.eqb d c || contains c rest
  end.

Definition lower_ascii (c : ascii) : ascii :=
  let n := nat_of_ascii c in
  if ((65 <=? n)%nat && (n <=? 90)%nat)%bool then ascii_of_nat (n + 32) else c.

(** [s.lower()], for ASCII text: the letters A to Z are mapped, every
    other character is kept. *)
Fixpoint lower (s : string) : string :=
  match s with
  | EmptyString => EmptyString
  | String c rest => String (lower_ascii c) (lower rest)
  end.

(** Formatting of a [str]-or-[None] field inside an f-string: [None] is
    rendered by Python as the four characters [None]. *)
Definition fmt (f : option string) : string :=
  match f with
  | Some s => s
  | None => "None"
  end.

(** Truth value of a [str]-or-[None] field: [None] and [""] are false. *)
Definition truthy (f : option string) : bool :=
  match f with
  | None => false
  | Some EmptyString => false
  | Some _ => true
  end.

(* ================================================================== *)
(** * client.py: ARN *)

(** [split_arn_string]: split an ARN into a list and handle complex
    resource ids. *)
Definition split_arn_string (arn : string) : result (list string) :=
  let parts := split ":" arn in
  if (List.length parts =? 6)%nat then
    p5 <- getitem parts 5 ;;
    if contains "/" p5 then
      let resource := split "/" p5 in
      r0 <- getitem resource 0 ;;
      parts <- setitem parts 5 (lower r0) ;;
      Ok (parts ++ [join "/" (skipn 1 resource)])%list
    else
      setitem parts 6 ""
  else Ok parts.

(** The [ARN] dataclass: seven fields, each a [str] defaulting to [None]. *)
Record ARN : Type := mkARN {
  prefix : option string;
  partition : option string;
  service : option string;
  region : option string;
  account_id : option string;
  resource_type : option string;
  resource_id : option string
}.

(** The dataclass constructor applied to an unpacked argument list:
    positional arguments fill the fields in declaration
    order, missing ones keep their default; more than seven is a
    [TypeError]. *)
Definition ARN_init (args : list string) : result ARN :=
  if (7 <? List.length args)%nat then Raise TypeError
  else Ok (mkARN (nth_error args 0) (nth_error args 1) (nth_error args 2)
                 (nth_error args 3) (nth_error args 4) (nth_error args 5)
                 (nth_error args 6)).

(** [ARN.from_string]. *)
Definition ARN_from_string (arn : string) : result ARN :=
  parts <- split_arn_string arn ;;
  ARN_init parts.

(** [ARN.__str__]. *)
Definition ARN_str (a : ARN) : string :=
  fmt (prefix a) ++ ":" ++ fmt (partition a) ++ ":" ++ fmt (service a) ++ ":"
  ++ fmt (region a) ++ ":" ++ fmt (account_id a) ++ ":"
  ++ fmt (resource_type a) ++ "/" ++ fmt (resource_id a).

(* ================================================================== *)
(** * Python values that travel as policy documents *)

(** A JSON-shaped Python value: [None], [bool], [int], [str], [list] and
    [dict] (string keys, in insertion order). *)
#[warnings="-register-all"]
Inductive json : Type :=
| JNull
| JBool (b : bool)
| JNum (n : Z)
| JStr (s : string)
| JList (items : list json)
| JDict (entries : list (string * json)).

(** The [json] module: [json.loads] may raise on text that is not JSON. *)
Class Json : Type := {
  json_loads : string -> result json;
  json_dumps : json -> string
}.

(** [d[key]] on the entries of a dict. *)
Fixpoint dict_get (entries : list (string * json)) (key : string) : result json :=
  match entries with
  | [] => Raise (KeyError key)
  | (k, v) :: rest => if String.eqb k key then Ok v else dict_get rest key
  end.

(** [v[key]] with a [str] key: only a dict accepts it. *)
Definition subscript (v : json) (key : string) : result json :=
  match v with
  | JDict entries => dict_get entries key
  | _ => Raise TypeError
  end.

Fixpoint chars (s : string) : list json :=
  match s with
  | EmptyString => []
  | String c rest => JStr (String c EmptyString) :: chars rest
  end.

(** The elements [list.extend(v)] appends: those of a list, the keys of a
    dict, the characters of a string; anything else is not iterable. *)
Definition iterate (v : json) : result (list json) :=
  match v with
  | JList items => Ok items
  | JDict entries => Ok (map (fun kv => JStr (fst kv)) entries)
  | JStr s => Ok (chars s)
  | _ => Raise TypeError
  end.

(* ================================================================== *)
(** * client.py: ClientMaker *)

(** A keyword-argument value and a dictionary of keyword arguments. *)
Inductive pyarg : Type :=
| PStr (s : string)
| PDict (d : list (string * string)).

Definition kwargs : Type := list (string * pyarg).

(** A boto3 client made by [ClientMaker.client]. *)
Record BotoClient : Type := mkBotoClient {
  service_name : string;
  client_args : option pyarg;
  config_args : option pyarg
}.

(** Response of STS GetCallerIdentity. *)
Record CallerIdentity : Type := mkCallerIdentity {
  Arn : string;
  Account : string
}.

(** An inline policy ([policy.policy_document]) or an attached managed
    policy ([policy.default_version.document]); reading the document is a
    round trip that may fail. *)
Record IamPolicy : Type := mkIamPolicy {
  document : result json
}.

(** What [get_policy_documents_for_resource] reads of a user, role or
    group: the two policy collections. *)
Record IamEntity : Type := mkIamEntity {
  attached_policies : result (list IamPolicy);
  inline_policies : result (list IamPolicy)
}.

Record PermissionsBoundary : Type := mkPermissionsBoundary {
  PermissionsBoundaryType : string;
  PermissionsBoundaryArn : string
}.

(** An [iam.User] or [iam.Role] resource.  [groups] is [None] when the
    resource has no such attribute (a role). *)
Record IamPrincipal : Type := mkIamPrincipal {
  entity :> IamEntity;
  groups : option (result (list IamEntity));
  permissions_boundary : result (option PermissionsBoundary)
}.

Record PolicySummary : Type := mkPolicySummary {
  Id : string
}.

(** The request of IAM SimulateCustomPolicy. *)
Record SimRequest : Type := mkSimRequest {
  PolicyInputList : list string;
  ActionNames : list string;
  PermissionsBoundaryPolicyInputList : list string;
  CallerArn : string;
  sim_args : list (string * string)
}.

Record EvaluationResult : Type := mkEvaluationResult {
  EvalDecision : string
}.

(** The extended session together with the account it talks to: each
    field is the response to one kind of request.  Responses do not change
    during a run, so the [lru_cache] on [_get_caller_identity] shows only
    in the hashing of its arguments. *)
Record ClientMaker : Type := mkClientMaker {
  (** [client.get_caller_identity()] on an STS client *)
  sts_get_caller_identity : BotoClient -> result CallerIdentity;
  (** [cm.resource("iam").User(name)] and [.Role(name)] *)
  iam_User : option string -> IamPrincipal;
  iam_Role : option string -> IamPrincipal;
  (** [cm.client("iam").Policy(arn)]: whatever the client object answers
      to that attribute, an error included *)
  iam_Policy : string -> IamPolicy;
  (** [cm.call(service="organizations", action="list_policies_for_target",
      ..., action_args={"TargetId": t, "Filter": "SERVICE_CONTROL_POLICY"})] *)
  list_policies_for_target : option string -> result (list PolicySummary);
  (** [org.describe_policy(PolicyId=i)["Policy"]["Content"]] *)
  describe_policy_Content : string -> result string;
  (** [cm.client("iam").simulate_custom_policy(...)["EvaluationResults"]] *)
  simulate_custom_policy : SimRequest -> result (list EvaluationResult)
}.

Definition kw_lookup (kw : kwargs) (name : string) : option pyarg :=
  match find (fun p => String.eqb (fst p) name) kw with
  | Some p => Some (snd p)
  | None => None
  end.

(** [ClientMaker.client] called with [service] and the keyword arguments
    [kw]: the signature has the
    parameters [service], [client_args] and [config_args]; any other
    keyword, or a second [service], is a [TypeError]. *)
Definition ClientMaker_client (service : string) (kw : kwargs) : result BotoClient :=
  if forallb (fun p => String.eqb (fst p) "client_args"
                       || String.eqb (fst p) "config_args") kw
  then Ok (mkBotoClient service (kw_lookup kw "client_args")
                        (kw_lookup kw "config_args"))
  else Raise TypeError.

(** Can the value be part of a cache key?  A dict cannot be hashed. *)
Definition hashable (v : pyarg) : bool :=
  match v with
  | PStr _ => true
  | PDict _ => false
  end.

(** [ClientMaker._get_caller_identity], called with the keyword arguments
    [client_args], which it forwards to [ClientMaker.client].  The
    [lru_cache] around it first builds its key from the keyword values,
    which is a [TypeError] for a value that cannot be hashed. *)
Definition _get_caller_identity (cm : ClientMaker) (client_args : kwargs)
  : result CallerIdentity :=
  if forallb (fun p => hashable (snd p)) client_args then
    c <- ClientMaker_client "sts" client_args ;;
    sts_get_caller_identity cm c
  else Raise TypeError.

(** Property [caller_arn_str]. *)
Definition caller_arn_str (cm : ClientMaker) : result string :=
  r <- _get_caller_identity cm [] ;; Ok (Arn r).

(** Property [account_number]. *)
Definition account_number (cm : ClientMaker) : result string :=
  r <- _get_caller_identity cm [] ;; Ok (Account r).

(** Property [caller_arn]. *)
Definition caller_arn (cm : ClientMaker) : result ARN :=
  s <- caller_arn_str cm ;; ARN_from_string s.

(** [ClientMaker.is_region_available]:
    try / [return True] / except ClientError / [return False] /
    finally / [raise Exception()]. *)
Definition is_region_available (cm : ClientMaker) (region : string) : result bool :=
  try_finally
    (try_except_ClientError
       (_ <- _get_caller_identity cm [("region_name", PStr region)] ;; Ok true)
       (Ok false))
    (Raise Exception_).

(* ================================================================== *)
(** * Requests and calls the specification speaks about *)

(** The trace records, in order, the Organizations and SimulateCustomPolicy
    requests the code sends and each call it makes to
    [merge_policy_dicts], with their arguments. *)
Inductive event : Type :=
| Call_list_policies_for_target (TargetId : option string)
| Call_describe_policy (PolicyId : string)
| Call_merge_policy_dicts (policies : list json)
| Call_simulate_custom_policy (request : SimRequest).

(** A computation that may raise and that leaves a trace. *)
Definition M (A : Type) : Type := (result A * list event)%type.

Definition ret {A} (a : A) : M A := (Ok a, []).

Definition lift {A} (r : result A) : M A := (r, []).

(** The request [e] is sent (or the call made) and answers [r]. *)
Definition call {A} (e : event) (r : result A) : M A := (r, [e]).

Definition mbind {A B} (c : M A) (k : A -> M B) : M B :=
  match c with
  | (Ok a, t) => let (r, t') := k a in (r, (t ++ t')%list)
  | (Raise e, t) => (Raise e, t)
  end.

Notation "x <~ c ;; k" := (mbind c (fun x => k))
  (at level 61, c at next level, right associativity).

(** [[f(x) for x in xs]] for a traced [f]. *)
Fixpoint mmap {A B} (f : A -> M B) (xs : list A) : M (list B) :=
  match xs with
  | [] => ret []
  | x :: rest => y <~ f x ;; ys <~ mmap f rest ;; ret (y :: ys)
  end.

(** [for x in xs: acc.extend(f(x))], starting from [acc]. *)
Fixpoint for_extend {A B} (f : A -> result (list B)) (xs : list A) (acc : list B)
  : result (list B) :=
  match xs with
  | [] => Ok acc
  | x :: rest => ys <- f x ;; for_extend f rest (acc ++ ys)%list
  end.

(* ================================================================== *)
(** * policy.py *)

(** [arn_to_iam_resource]: the boto3 resource of an IAM user or role. *)
Definition arn_to_iam_resource (arn : ARN) (cm : ClientMaker) : result IamPrincipal :=
  match resource_type arn with
  | Some "user" => Ok (iam_User cm (resource_id arn))
  | Some "role" => Ok (iam_Role cm (resource_id arn))
  | _ => Raise NotImplementedError
  end.

(** [get_scps_for_account]: the SCP documents of the given account. *)
Definition get_scps_for_account (account_number : option string) (cm : ClientMaker)
  : M (list json) :=
  scps <~ call (Call_list_policies_for_target account_number)
               (list_policies_for_target cm account_number) ;;
  mmap (fun scp =>
          content <~ call (Call_describe_policy (Id scp))
                          (describe_policy_Content cm (Id scp)) ;;
          ret (JStr content))
       scps.

(** The loop of [merge_policy_dicts]; [statement] is
    [merged_policy["Statement"]] so far. *)
Fixpoint merge_loop `{Json} (policies : list json) (statement : list json)
  : result (list json) :=
  match policies with
  | [] => Ok statement
  | policy :: rest =>
      policy <- match policy with
                | JStr s => json_loads s
                | _ => Ok policy
                end ;;
      st <- subscript policy "Statement" ;;
      more <- iterate st ;;
      merge_loop rest (statement ++ more)%list
  end.

(** [merge_policy_dicts]: merge multiple policies into one policy by
    pulling out all statements from all policies. *)
Definition merge_policy_dicts `{Json} (policies : list json) : result json :=
  statement <- merge_loop policies [] ;;
  Ok (JDict [("Version", JStr "2012-10-17"); ("Statement", JList statement)]).

(** [get_policy_documents_for_resource]: all attached, then all inline
    policy documents of a user, role or group. *)
Definition get_policy_documents_for_resource (resource : IamEntity) : result (list json) :=
  let policies := [] in
  attached <- attached_policies resource ;;
  policies <- for_extend (fun policy => d <- document policy ;; Ok [d]) attached policies ;;
  inline <- inline_policies resource ;;
  for_extend (fun policy => d <- document policy ;; Ok [d]) inline policies.

(** [get_group_policy_documents_for_resource]: the loop fills [policies]
    from every group of the resource; the function ends in [return []]. *)
Definition get_group_policy_documents_for_resource (resource : IamPrincipal)
  : result (list json) :=
  let policies := [] in
  _policies <- match groups resource with
               | Some all =>
                   gs <- all ;;
                   for_extend get_policy_documents_for_resource gs policies
               | None => Ok policies
               end ;;
  Ok [].

(** Instance state of [PolicyContainer]. *)
Record PolicyContainer : Type := mkPolicyContainer {
  policies : list json;
  negative_policies : option (list json);
  cm : ClientMaker;
  arn : ARN
}.

(** [PolicyContainer.__init__]. *)
Definition PolicyContainer_init `{Json} (arn : ARN) (cm : ClientMaker) (collect_scps : bool)
  : M PolicyContainer :=
  let policies := [] in
  let negative_policies := [] in
  resource <~ lift (arn_to_iam_resource arn cm) ;;
  direct <~ lift (get_policy_documents_for_resource resource) ;;
  let policies := (policies ++ direct)%list in
  grouped <~ lift (get_group_policy_documents_for_resource resource) ;;
  let policies := (policies ++ grouped)%list in
  boundary <~ lift (permissions_boundary resource) ;;
  negative_policies <~
    match boundary with
    | Some b =>
        d <~ lift (document (iam_Policy cm (PermissionsBoundaryArn b))) ;;
        ret (negative_policies ++ [d])%list
    | None => ret negative_policies
    end ;;
  negative_policies <~
    (if collect_scps then
       _account_number <~ (if truthy (account_id arn) then ret (account_id arn)
                           else n <~ lift (account_number cm) ;; ret (Some n)) ;;
       scps <~ get_scps_for_account (account_id arn) cm ;;
       ret (negative_policies ++ scps)%list
     else ret negative_policies) ;;
  merged <~
    (if (0 <? List.length negative_policies)%nat then
       m <~ call (Call_merge_policy_dicts negative_policies)
                 (merge_policy_dicts negative_policies) ;;
       ret (Some [m])
     else ret None) ;;
  ret (mkPolicyContainer policies merged cm arn).

(** The keywords [PolicyContainer.simulate] itself passes to
    [simulate_custom_policy]. *)
Definition simulate_keywords : list string :=
  ["PolicyInputList"; "ActionNames"; "PermissionsBoundaryPolicyInputList";
   "CallerArn"].

(** Does [sim_args] name one of them a second time? *)
Definition repeats_keyword (sim_args : list (string * string)) : bool :=
  existsb (fun kv => existsb (String.eqb (fst kv)) simulate_keywords) sim_args.

(** [PolicyContainer.simulate]: the decision of the first evaluation
    result of IAM SimulateCustomPolicy on the gathered policies.  The call
    passes four keywords next to the unpacked [sim_args]; a keyword given
    twice is a [TypeError] and the call is not made. *)
Definition PolicyContainer_simulate `{Json} (self : PolicyContainer)
    (actions : list string) (sim_args : list (string * string)) : M string :=
  let policies := map json_dumps (policies self) in
  let negative_policies :=
    match negative_policies self with
    | Some (p :: ps) => map json_dumps (p :: ps)
    | _ => []
    end in
  sim_result <~
    (let request := mkSimRequest policies actions negative_policies
                                 (ARN_str (arn self)) sim_args in
     if repeats_keyword sim_args then lift (Raise TypeError)
     else call (Call_simulate_custom_policy request)
               (simulate_custom_policy (cm self) request)) ;;
  first <~ lift (getitem sim_result 0) ;;
  ret (EvalDecision first).

(** botocore's client metadata, read through an unsigned client:
    [unsigned_client(service).meta.method_to_api_mapping]. *)
Class Botocore : Type := {
  method_to_api_mapping : string -> result (list (string * string))
}.

(** [mapping[key]] on a dict from [str] to [str]. *)
Fixpoint mapping_get (mapping : list (string * string)) (key : string) : result string :=
  match mapping with
  | [] => Raise (KeyError key)
  | (k, v) :: rest => if String.eqb k key then Ok v else mapping_get rest key
  end.

(** Instance state of [SimulatedClient]. *)
Record SimulatedClient : Type := mkSimulatedClient {
  _service : string;
  _cm : ClientMaker;
  _pc : PolicyContainer
}.

(** [SimulatedClient.__init__]; [cm] is the [ClientMaker] it creates. *)
Definition SimulatedClient_init `{Json} (service : string) (collect_scps : bool)
    (cm : ClientMaker) : M SimulatedClient :=
  a <~ lift (caller_arn cm) ;;
  pc <~ PolicyContainer_init a cm collect_scps ;;
  ret (mkSimulatedClient service cm pc).

(** [SimulatedClient.__getattr__(operation)(...)]: the function
    [simulate_api], whose own arguments are ignored. *)
Definition simulate_api `{Json} `{Botocore} (self : SimulatedClient) (operation : string)
  : M string :=
  mapping <~ lift (method_to_api_mapping (_service self)) ;;
  method <~ lift (mapping_get mapping operation) ;;
  let action := lower (_service self) ++ ":" ++ method in
  PolicyContainer_simulate (_pc self) [action] [].

(* ================================================================== *)
(** * Notions used to state the properties *)

(** Rendering as the specification words it: the seven fields in the
    canonical order, an undefined field giving an empty segment. *)
Definition toString_spec (a : ARN) : string :=
  let seg (f : option string) := match f with Some s => s | None => "" end in
  seg (prefix a) ++ ":" ++ seg (partition a) ++ ":" ++ seg (service a) ++ ":"
  ++ seg (region a) ++ ":" ++ seg (account_id a) ++ ":"
  ++ seg (resource_type a) ++ "/" ++ seg (resource_id a).

(** Every character of the text is an ASCII character.  On such text
    [lower] is what [str.lower()] computes; beyond it [str.lower()] also
    maps letters that [lower] leaves alone. *)
Fixpoint is_ascii (s : string) : bool :=
  match s with
  | EmptyString => true
  | String c rest => (nat_of_ascii c <? 128)%nat && is_ascii rest
  end.

(** No field of the reference holds a colon. *)
Definition colon_free (a : ARN) : bool :=
  forallb (fun f => negb (contains ":" (fmt f)))
          [prefix a; partition a; service a; region a; account_id a;
           resource_type a; resource_id a].

(** [p] is a policy document with statement sequence [stmts]: a mapping
    whose [Statement] entry is that sequence, or text that deserializes to
    such a mapping. *)
Definition is_policy_document `{Json} (p : json) (stmts : list json) : Prop :=
  exists entries,
    (p = JDict entries \/ exists s, p = JStr s /\ json_loads s = Ok (JDict entries))
    /\ dict_get entries "Statement" = Ok (JList stmts).

(** Requests to Organizations. *)
Definition is_organizations_request (e : event) : Prop :=
  match e with
  | Call_list_policies_for_target _ | Call_describe_policy _ => True
  | _ => False
  end.

(** A document that cannot be read for its statements: text that
    [json.loads] rejects, or a value other than text whose [Statement]
    entry cannot be taken. *)
Definition unreadable `{Json} (p : json) (e : exn) : Prop :=
  (exists s, p = JStr s /\ json_loads s = Raise e)
  \/ ((forall s, p <> JStr s) /\ subscript p "Statement" = Raise e).

(** The merged document with the given statements. *)
Definition merged (stmts : list json) : json :=
  JDict [("Version", JStr "2012-10-17"); ("Statement", JList stmts)].

(* ================================================================== *)
(** * A small account to run the definitions on *)

Module Demo.

(** The double-quote character of JSON text. *)
Definition dq : string := String (ascii_of_nat 34) EmptyString.

Definition quoted (s : string) : string := dq ++ s ++ dq.

(** A compact serializer in the layout of [json.dumps] (strings are
    assumed to need no escaping). *)
Fixpoint dumps (v : json) : string :=
  match v with
  | JNull => "null"
  | JBool true => "true"
  | JBool false => "false"
  | JNum n => NilZero.string_of_int (Z.to_int n)
  | JStr s => quoted s
  | JList items => "[" ++ join ", " (map dumps items) ++ "]"
  | JDict entries =>
      "{" ++ join ", " (map (fun kv : string * json =>
                               let (k, x) := kv in quoted k ++ ": " ++ dumps x)
                            entries) ++ "}"
  end.

(** The [json] module restricted to the one text the account serves. *)
Definition deny_statement : json :=
  JDict [("Effect", JStr "Deny"); ("Action", JStr "iam:*"); ("Resource", JStr "*")].

Definition scp_document : list (string * json) :=
  [("Version", JStr "2012-10-17"); ("Statement", JList [deny_statement])].

Definition scp_text : string := Eval vm_compute in dumps (JDict scp_document).

Definition loads (s : string) : result json :=
  if String.eqb s scp_text then Ok (JDict scp_document) else Raise JSONDecodeError.

Definition json_module : Json :=
  {| json_loads := loads; json_dumps := dumps |}.

Definition botocore : Botocore :=
  {| method_to_api_mapping := fun service =>
       if String.eqb service "ec2"
       then Ok [("describe_instances", "DescribeInstances");
                ("run_instances", "RunInstances")]
       else Raise UnknownServiceError |}.

Definition allow_statement (action : string) : json :=
  JDict [("Effect", JStr "Allow"); ("Action", JStr action); ("Resource", JStr "*")].

Definition policy_of (stmts : list json) : IamPolicy :=
  mkIamPolicy (Ok (merged stmts)).

(** Group [admins]: one attached policy. *)
Definition admins : IamEntity :=
  mkIamEntity (Ok [policy_of [allow_statement "iam:*"]]) (Ok []).

(** User [alice]: one inline policy, member of [admins], no boundary. *)
Definition alice : IamPrincipal :=
  mkIamPrincipal (mkIamEntity (Ok []) (Ok [policy_of [allow_statement "s3:GetObject"]]))
                 (Some (Ok [admins])) (Ok None).

(** Role [MyRole]: one attached and one inline policy, no boundary. *)
Definition MyRole : IamPrincipal :=
  mkIamPrincipal (mkIamEntity (Ok [policy_of [allow_statement "ec2:*"]])
                              (Ok [policy_of [allow_statement "s3:GetObject"]]))
                 None (Ok None).

(** A name IAM does not know. *)
Definition missing : IamPrincipal :=
  mkIamPrincipal (mkIamEntity (Raise (ClientError "NoSuchEntity"))
                              (Raise (ClientError "NoSuchEntity")))
                 None (Raise (ClientError "NoSuchEntity")).

Definition is_name (f : option string) (name : string) : bool :=
  match f with
  | Some s => String.eqb s name
  | None => false
  end.

(** Account 123456789012, called as [MyRole]. *)
Definition account : ClientMaker :=
  {| sts_get_caller_identity := fun _ =>
       Ok (mkCallerIdentity "arn:aws:iam::123456789012:role/MyRole" "123456789012");
     iam_User := fun name => if is_name name "alice" then alice else missing;
     iam_Role := fun name => if is_name name "MyRole" then MyRole else missing;
     iam_Policy := fun _ => mkIamPolicy (Raise AttributeError);
     list_policies_for_target := fun target =>
       if is_name target "123456789012"
       then Ok [mkPolicySummary "p-examplescp"]
       else Raise (ClientError "InvalidInputException");
     describe_policy_Content := fun i =>
       if String.eqb i "p-examplescp" then Ok scp_text
       else Raise (ClientError "PolicyNotFoundException");
     simulate_custom_policy := fun _ => Ok [mkEvaluationResult "allowed"] |}.

(** The reference of [alice], and the one parsed from an identity string
    whose account field is empty. *)
Definition user_arn : ARN :=
  mkARN (Some "arn") (Some "aws") (Some "iam") (Some "") (Some "123456789012")
        (Some "user") (Some "alice").

Definition user_arn_no_account : ARN :=
  mkARN (Some "arn") (Some "aws") (Some "iam") (Some "") (Some "")
        (Some "user") (Some "alice").

End Demo.

(* ================================================================== *)
(** * util.py and the rest of client.py *)

(** A Python dict with [str] keys: its entries in insertion order. *)
Definition pydict (V : Type) : Type := list (string * V).

(** [d.get(key)]. *)
Fixpoint dict_lookup {V} (d : pydict V) (key : string) : option V :=
  match d with
  | [] => None
  | (k, v) :: rest => if String.eqb k key then Some v else dict_lookup rest key
  end.

(** [d[key] = v]: an existing key keeps its place, a new one goes last. *)
Fixpoint dict_set {V} (d : pydict V) (key : string) (v : V) : pydict V :=
  match d with
  | [] => [(key, v)]
  | (k, x) :: rest =>
      if String.eqb k key then (k, v) :: rest else (k, x) :: dict_set rest key v
  end.

(** A dict display filled from [entries], left to right. *)
Definition dict_of {V} (entries : list (string * V)) : pydict V :=
  fold_left (fun d kv => dict_set d (fst kv) (snd kv)) entries [].

(** Truth value of a dict-or-[None] argument. *)
Definition dict_truthy {V} (d : option (pydict V)) : bool :=
  match d with
  | Some (_ :: _) => true
  | _ => false
  end.

(** The dict behind an argument known to be a dict. *)
Definition dict_value {V} (d : option (pydict V)) : pydict V :=
  match d with
  | Some entries => entries
  | None => []
  end.

(** [merge_dicts]: merge two dict, also handles one or more empty dicts.
    The last line is the display that unpacks [dict1], then [dict2]. *)
Definition merge_dicts {V} (dict1 dict2 : option (pydict V)) : pydict V :=
  if negb (dict_truthy dict1) && negb (dict_truthy dict2) then []
  else if negb (dict_truthy dict1) then dict_value dict2
  else if negb (dict_truthy dict2) then dict_value dict1
  else dict_of (dict_value dict1 ++ dict_value dict2)%list.

(** [l[-k]] for [k >= 1]. *)
Definition getitem_neg {A} (l : list A) (k : nat) : result A :=
  if (k <=? List.length l)%nat then getitem l (List.length l - k)
  else Raise IndexError.

(** [v.split(".")] on the value of [kwargs.get(...)]: only a [str] has
    the method. *)
Definition split_dots (v : option json) : result (list string) :=
  match v with
  | Some (JStr s) => Ok (split "." s)
  | _ => Raise AttributeError
  end.

(** [kwargs.get("context")["client_region"]]. *)
Definition client_region (kwargs : pydict json) : result json :=
  match dict_lookup kwargs "context" with
  | Some context => subscript context "client_region"
  | None => Raise TypeError
  end.

(** [log_params]: the line handed to [logger.info]. *)
Definition log_params `{Json} (params : json) (kwargs : pydict json) : result string :=
  parts <- split_dots (dict_lookup kwargs "event_name") ;;
  service <- getitem_neg parts 2 ;;
  parts <- split_dots (dict_lookup kwargs "event_name") ;;
  operation <- getitem_neg parts 1 ;;
  region <- client_region kwargs ;;
  Ok (json_dumps (JDict [("service", JStr service); ("operation", JStr operation);
                         ("params", params); ("region", region)])).

(** What [ClientMaker] uses of its boto3 session. *)
Record Session : Type := mkSession {
  (** [hasattr(session, name)] *)
  session_hasattr : string -> bool
}.

(** The call a [ClientMaker] makes on its session: the attribute called,
    the keyword arguments [Config] is built from, and the other keyword
    arguments. *)
Record SessionCall : Type := mkSessionCall {
  factory : string;
  config : pydict json;
  call_kwargs : pydict json
}.

Definition has_key {V} (d : pydict V) (key : string) : bool :=
  match dict_lookup d key with
  | Some _ => true
  | None => false
  end.

(** botocore's [Config]: the outcome of building one from the given
    keyword arguments.  It raises on an option it does not know and on a
    value it does not accept. *)
Class BotocoreConfig : Type := {
  Config_init : pydict json -> result unit
}.

(** [ClientMaker._gen_config]: [user_agent] is passed by keyword next to
    the unpacked [config_args], so a second [user_agent] is a [TypeError]
    before [Config] is entered; then [Config] may raise.  The result
    stands for the [Config] built from these keyword arguments. *)
Definition _gen_config `{BotocoreConfig} (user_agent : string)
    (config_args : pydict json) : result (pydict json) :=
  if has_key config_args "user_agent" then Raise TypeError
  else
    let options := ("user_agent", JStr user_agent) :: config_args in
    _ <- Config_init options ;;
    Ok options.

(** [ClientMaker._gen_session_resource].  [_gen_config] is a method called
    with [config_args] unpacked, so an entry named [self] clashes with the
    instance it is bound to. *)
Definition _gen_session_resource `{BotocoreConfig} (session : Session) (user_agent : string)
    (resource_type : string) (resource_args config_args : option (pydict json))
  : result SessionCall :=
  if session_hasattr session resource_type then
    let config_args := if negb (dict_truthy config_args) then [] else dict_value config_args in
    let resource_args :=
      if negb (dict_truthy resource_args) then [] else dict_value resource_args in
    cfg <- (if has_key config_args "self" then Raise TypeError
            else _gen_config user_agent config_args) ;;
    if has_key resource_args "config" then Raise TypeError
    else Ok (mkSessionCall resource_type cfg resource_args)
  else Raise Exception_.

(** [ClientMaker.client], as the call it makes on the session. *)
Definition client_session_call `{BotocoreConfig} (session : Session) (user_agent : string)
    (service : string) (client_args config_args : option (pydict json))
  : result SessionCall :=
  _gen_session_resource session user_agent "client"
    (Some (merge_dicts client_args (Some [("service_name", JStr service)])))
    config_args.


(** A service client of one region, as [ClientMaker.call] uses it. *)
Record ServiceClient : Type := mkServiceClient {
  (** [client.can_paginate(action)] *)
  can_paginate : string -> bool;
  (** the pages of [client.get_paginator(action).paginate(...)] *)
  paginate : string -> pydict json -> result (list json);
  (** what [.search(jmes_filter)] yields on those pages *)
  paginate_search : string -> pydict json -> string -> result (list json);
  (** [getattr(client, action)(...)] *)
  invoke : string -> pydict json -> result json
}.

(** The session as [ClientMaker.call] sees it. *)
Record Regions : Type := mkRegions {
  (** property [enabled_regions] *)
  enabled_regions : result (list string);
  (** [self.session.region_name] *)
  region_name : option string;
  (** [self.client("sts").meta.region_name] *)
  sts_region_name : result string;
  (** [self.client(service=..., config_args={"region_name": region},
      client_args=...)] *)
  region_client : string -> string -> option (pydict json) -> result ServiceClient
}.

(** The loop of [ClientMaker.call] over the regions; [results] is the
    list gathered so far. *)
Fixpoint call_loop (w : Regions) (service action response_key : string)
    (jmes_filter : option string) (action_args : pydict json)
    (client_args : option (pydict json)) (regions : list string)
    (results : list json) : result (list json) :=
  match regions with
  | [] => Ok results
  | region :: rest =>
      client <- region_client w service region client_args ;;
      results <-
        (if can_paginate client action then
           match jmes_filter with
           | Some (String _ _ as jmes_filter) =>
               found <- paginate_search client action action_args jmes_filter ;;
               for_extend iterate found results
           | _ =>
               pages <- paginate client action action_args ;;
               for_extend (fun data => v <- subscript data response_key ;; iterate v)
                          pages results
           end
         else
           response <- invoke client action action_args ;;
           v <- subscript response response_key ;;
           more <- iterate v ;;
           Ok (results ++ more)%list) ;;
      call_loop w service action response_key jmes_filter action_args client_args
                rest results
  end.

(** [ClientMaker.call]: call an AWS API with automatic paginator and
    multi-region support. *)
Definition ClientMaker_call (w : Regions) (service action response_key : string)
    (all_regions : bool) (region jmes_filter : option string)
    (action_args client_args : option (pydict json)) : result (list json) :=
  let action_args := if negb (dict_truthy action_args) then [] else dict_value action_args in
  regions <-
    (if all_regions then enabled_regions w
     else match region with
          | Some (String _ _ as region) => Ok [region]
          | _ =>
              match region_name w with
              | Some (String _ _ as r) => Ok [r]
              | _ => r <- sts_region_name w ;; Ok [r]
              end
          end) ;;
  call_loop w service action response_key jmes_filter action_args client_args
            regions [].

Module DemoRegions.

(** One page of DescribeInstances per region, one instance on it. *)
Definition page (instance : string) : json :=
  JDict [("Reservations", JList [JStr instance]); ("NextToken", JNull)].

Definition ec2 (instance : string) : ServiceClient :=
  {| can_paginate := fun action => String.eqb action "describe_instances";
     paginate := fun _ _ => Ok [page instance];
     paginate_search := fun _ _ _ => Ok [JList [JStr instance]];
     invoke := fun _ _ => Ok (JDict [("KeyPairs", JList [])]) |}.

(** Two enabled regions; a third one refuses the client's requests. *)
Definition regions : Regions :=
  {| enabled_regions := Ok ["us-east-1"; "eu-west-1"];
     region_name := Some "us-east-1";
     sts_region_name := Ok "us-east-1";
     region_client := fun _ region _ =>
       if String.eqb region "us-east-1" then Ok (ec2 "i-east")
       else if String.eqb region "eu-west-1" then Ok (ec2 "i-west")
       else Raise (ClientError "AuthFailure") |}.

(** The same session with a region that is not opted in listed second. *)
Definition regions_with_closed : Regions :=
  {| enabled_regions := Ok ["us-east-1"; "ap-east-1"; "eu-west-1"];
     region_name := region_name regions;
     sts_region_name := sts_region_name regions;
     region_client := region_client regions |}.

(** The account of [Demo], whose organization lists three policies, the
    second of which has been deleted since. *)
Definition account_with_stale_scp : ClientMaker :=
  {| sts_get_caller_identity := sts_get_caller_identity Demo.account;
     iam_User := iam_User Demo.account;
     iam_Role := iam_Role Demo.account;
     iam_Policy := iam_Policy Demo.account;
     list_policies_for_target := fun _ =>
       Ok [mkPolicySummary "p-examplescp"; mkPolicySummary "p-deleted";
           mkPolicySummary "p-other"];
     describe_policy_Content := describe_policy_Content Demo.account;
     simulate_custom_policy := simulate_custom_policy Demo.account |}.

(** The account of [Demo], called from an assumed-role session. *)
Definition assumed_role_session : ClientMaker :=
  {| sts_get_caller_identity := fun _ =>
       Ok (mkCallerIdentity "arn:aws:sts::123456789012:assumed-role/MyRole/build"
                            "123456789012");
     iam_User := iam_User Demo.account;
     iam_Role := iam_Role Demo.account;
     iam_Policy := iam_Policy Demo.account;
     list_policies_for_target := list_policies_for_target Demo.account;
     describe_policy_Content := describe_policy_Content Demo.account;
     simulate_custom_policy := simulate_custom_policy Demo.account |}.

(** [Config] as far as its option names go: an unknown one is a
    [TypeError]. *)
Definition config_module : BotocoreConfig :=
  {| Config_init := fun options =>
       if forallb (fun kv =>
                     existsb (String.eqb (fst kv))
                             ["region_name"; "signature_version"; "user_agent";
                              "user_agent_extra"; "connect_timeout";
                              "read_timeout"; "retries"; "max_pool_connections"])
                  options
       then Ok tt else Raise TypeError |}.

(** A session object with the two factories. *)
Definition session : Session :=
  {| session_hasattr := fun name =>
       String.eqb name "client" || String.eqb name "resource" |}.

End DemoRegions.

(* ================================================================== *)
(** * Properties of the string operations *)

Section Strings.

Variable sep : ascii.

Lemma split_not_nil (s : string) : split sep s <> [].
Proof.
  destruct s as [|c s]; simpl; [discriminate|].
  destruct (Ascii.eqb c sep); [discriminate|].
  destruct (split sep s); discriminate.
Qed.

(** A string without the separator is one piece. *)
Lemma split_without_sep (s : string) :
  contains sep s = false -> split sep s = [s].
Proof.
  induction s as [|c s IH]; simpl; intros Hc; [reflexivity|].
  apply orb_false_iff in Hc as [Hne Hrest].
  rewrite Hne, (IH Hrest). reflexivity.
Qed.

(** The first separator ends the first piece. *)
Lemma split_first_piece (s rest : string) :
  contains sep s = false ->
  split sep (s ++ String sep rest) = s :: split sep rest.
Proof.
  induction s as [|c s IH]; simpl; intros Hc.
  - rewrite Ascii.eqb_refl. reflexivity.
  - apply orb_false_iff in Hc as [Hne Hrest].
    rewrite Hne, (IH Hrest). reflexivity.
Qed.

Lemma contains_app (s1 s2 : string) :
  contains sep (s1 ++ s2) = contains sep s1 || contains sep s2.
Proof.
  induction s1 as [|c s1 IH]; simpl; [reflexivity|].
  rewrite IH. apply orb_assoc.
Qed.

End Strings.

Lemma setitem_out_of_range {A} (l : list A) (i : nat) (v : A) :
  (List.length l <= i)%nat -> setitem l i v = Raise IndexError.
Proof.
  revert i; induction l as [|h t IH]; intros i Hi; simpl in *; [reflexivity|].
  destruct i as [|j]; [lia|].
  rewrite IH by lia. reflexivity.
Qed.

Lemma getitem_in_range {A} (l : list A) (i : nat) :
  (i < List.length l)%nat -> exists a, getitem l i = Ok a /\ nth_error l i = Some a.
Proof.
  intros Hi. unfold getitem.
  destruct (nth_error l i) as [a|] eqn:E; [eauto|].
  apply nth_error_None in E. lia.
Qed.

(* ================================================================== *)
(** * Identity References *)

(** Every string with six colon-separated parts whose sixth part has no
    slash makes [split_arn_string] assign past the end of the list. *)
Lemma split_arn_string_no_slash (s : string) (p5 : string) :
  List.length (split ":" s) = 6%nat ->
  nth_error (split ":" s) 5 = Some p5 ->
  contains "/" p5 = false ->
  split_arn_string s = Raise IndexError.
Proof.
  intros Hlen Hnth Hslash. unfold split_arn_string, getitem.
  rewrite Hlen, Hnth. simpl. rewrite Hslash.
  apply setitem_out_of_range. lia.
Qed.

(** C5, as stated, fails: a string with two colon-separated parts is
    parsed without error into a reference that has only its first two
    fields set. *)
Lemma short_identity_string_accepted :
  (List.length (split ":" "arn:aws") < 6)%nat /\
  ARN_from_string "arn:aws"
  = Ok (mkARN (Some "arn") (Some "aws") None None None None None).
Proof. split; [simpl; lia | reflexivity]. Qed.

(** C5 (amended): for every input string with fewer than six
    colon-separated parts, parsing raises nothing; it returns the
    reference whose leading fields are the parts present, in order, and
    whose remaining fields, resource type and resource id among them, are
    left undefined. *)
Theorem from_string_short (s : string) :
  (List.length (split ":" s) < 6)%nat ->
  let parts := split ":" s in
  ARN_from_string s
  = Ok (mkARN (nth_error parts 0) (nth_error parts 1) (nth_error parts 2)
              (nth_error parts 3) (nth_error parts 4) None None)
  /\ exists p, nth_error parts 0 = Some p.
Proof.
  intros Hlen parts. subst parts. split.
  - unfold ARN_from_string, split_arn_string.
    destruct (Nat.eqb_spec (List.length (split ":" s)) 6) as [E|_]; [lia|].
    simpl. unfold ARN_init.
    destruct (Nat.ltb_spec 7 (List.length (split ":" s))) as [L|_]; [lia|].
    assert (H5 : nth_error (split ":" s) 5 = None) by (apply nth_error_None; lia).
    assert (H6 : nth_error (split ":" s) 6 = None) by (apply nth_error_None; lia).
    rewrite H5, H6. reflexivity.
  - pose proof (split_not_nil ":" s) as Hne.
    destruct (split ":" s) as [|p rest]; [congruence|]. exists p. reflexivity.
Qed.

Lemma from_string_short_witness :
  ARN_from_string "arn:aws:iam"
  = Ok (mkARN (Some "arn") (Some "aws") (Some "iam") None None None None)
  /\ exists p, nth_error (split ":" "arn:aws:iam") 0 = Some p.
Proof.
  apply (from_string_short "arn:aws:iam"). simpl. lia.
Defined.

(** C6: the code raises [IndexError] on every string with exactly six
    colon-separated parts whose sixth part holds no slash, where the claim
    promises a reference with an empty resource id. *)
Theorem from_string_six_parts_no_slash (s : string) (p5 : string) :
  List.length (split ":" s) = 6%nat ->
  nth_error (split ":" s) 5 = Some p5 ->
  contains "/" p5 = false ->
  ARN_from_string s = Raise IndexError.
Proof.
  intros Hlen Hnth Hslash. unfold ARN_from_string.
  rewrite (split_arn_string_no_slash s p5 Hlen Hnth Hslash). reflexivity.
Qed.

Lemma from_string_six_parts_no_slash_witness :
  ARN_from_string "arn:aws:s3:::mybucket" = Raise IndexError.
Proof.
  apply (from_string_six_parts_no_slash "arn:aws:s3:::mybucket" "mybucket");
    reflexivity.
Defined.

(** C7: the string arn:aws:iam::123456789012:role/MyRole parses to the
    fields arn, aws, iam, empty region, 123456789012, role, MyRole, and
    rendering the parsed reference gives the input string back. *)
Theorem from_string_role_roundtrip :
  let s := "arn:aws:iam::123456789012:role/MyRole" in
  ARN_from_string s
  = Ok (mkARN (Some "arn") (Some "aws") (Some "iam") (Some "")
              (Some "123456789012") (Some "role") (Some "MyRole"))
  /\ (a <- ARN_from_string s ;; Ok (ARN_str a)) = Ok s.
Proof. split; reflexivity. Qed.

(** C10, as stated, fails: the reference parsed from a two-part string has
    five undefined fields, and its rendering differs from the one with
    empty segments; each undefined field comes out as the token None. *)
Lemma ARN_str_undefined_not_empty :
  let a := mkARN (Some "arn") (Some "aws") None None None None None in
  ARN_from_string "arn:aws" = Ok a
  /\ ARN_str a = "arn:aws:None:None:None:None/None"
  /\ toString_spec a = "arn:aws::::/"
  /\ ARN_str a <> toString_spec a.
Proof. repeat split; discriminate. Qed.

(** C10 (amended): for every reference, rendering produces the segments
    in the order prefix, partition, service, region, account id, resource
    type slash resource id, joined by colons; a field that is set is
    rendered as its value (so an empty string gives an empty segment) and a
    field that is undefined is rendered as the token None.  When, besides,
    no field holds a colon, splitting the rendering at the colons gives
    back exactly those six segments. *)
Theorem ARN_str_segments (a : ARN) :
  let segments :=
    [fmt (prefix a); fmt (partition a); fmt (service a); fmt (region a);
     fmt (account_id a); fmt (resource_type a) ++ "/" ++ fmt (resource_id a)] in
  ARN_str a = join ":" segments
  /\ fmt None = "None"
  /\ (forall s, fmt (Some s) = s)
  /\ (colon_free a = true -> split ":" (ARN_str a) = segments).
Proof.
  intros segments. subst segments.
  split; [reflexivity|]. split; [reflexivity|]. split; [reflexivity|].
  intros Hfree. unfold colon_free in Hfree. simpl in Hfree.
  repeat (apply andb_true_iff in Hfree as [?H Hfree]).
  repeat match goal with
         | H : negb _ = true |- _ => apply negb_true_iff in H
         end.
  unfold ARN_str.
  change ":" with (String ":" EmptyString) at 1 2 3 4 5.
  simpl String.append.
  repeat (rewrite split_first_piece by assumption).
  rewrite split_without_sep; [reflexivity|].
  rewrite !contains_app. simpl.
  repeat match goal with
         | H : contains _ _ = false |- _ => rewrite H
         end.
  reflexivity.
Qed.

Lemma ARN_str_segments_witness :
  ARN_str (mkARN (Some "arn") (Some "aws") (Some "s3") (Some "") None
                 (Some "object") (Some "k:1"))
  = "arn:aws:s3::None:object/k:1"
  /\ split ":" (ARN_str (mkARN (Some "arn") (Some "aws") (Some "s3") (Some "") None
                               (Some "bucket") None))
     = ["arn"; "aws"; "s3"; ""; "None"; "bucket/None"].
Proof.
  split.
  - apply (ARN_str_segments
             (mkARN (Some "arn") (Some "aws") (Some "s3") (Some "") None
                    (Some "object") (Some "k:1"))).
  - apply (ARN_str_segments
             (mkARN (Some "arn") (Some "aws") (Some "s3") (Some "") None
                    (Some "bucket") None)).
    reflexivity.
Defined.

(* ================================================================== *)
(** * The region probe *)

(** A [finally] suite that raises decides the outcome, whatever the
    protected statement did. *)
Lemma try_finally_raise {A} (protected : result A) (e : exn) :
  try_finally protected (Raise e) = Raise e.
Proof. reflexivity. Qed.

(** The keyword [region_name] is not a parameter of [ClientMaker.client],
    so the probe's identity call raises [TypeError] before any request. *)
Lemma _get_caller_identity_region_name (cm : ClientMaker) (region : string) :
  _get_caller_identity cm [("region_name", PStr region)] = Raise TypeError.
Proof. reflexivity. Qed.

(** C9: the code raises a bare [Exception] for every session and every
    region; it returns neither true nor false, and the error of the
    identity call is replaced, not propagated. *)
Theorem is_region_available_always_raises (cm : ClientMaker) (region : string) :
  is_region_available cm region = Raise Exception_.
Proof. unfold is_region_available. apply try_finally_raise. Qed.

(* ================================================================== *)
(** * The Policy Merger *)

Section Merger.

Context `{Json}.

(** One round of the loop on a policy document appends its statements. *)
Lemma merge_loop_cons (p : json) (stmts : list json) (rest acc : list json) :
  is_policy_document p stmts ->
  merge_loop (p :: rest) acc = merge_loop rest (acc ++ stmts)%list.
Proof.
  intros (entries & Hshape & Hget).
  destruct Hshape as [-> | (s & -> & Hloads)]; simpl.
  - rewrite Hget. reflexivity.
  - rewrite Hloads. simpl. rewrite Hget. reflexivity.
Qed.

Lemma merge_loop_concat (ps : list json) (sts : list (list json)) :
  Forall2 is_policy_document ps sts ->
  forall acc, merge_loop ps acc = Ok (acc ++ concat sts)%list.
Proof.
  induction 1 as [|p stmts ps sts Hp _ IH]; intros acc; simpl concat.
  - simpl. rewrite app_nil_r. reflexivity.
  - rewrite (merge_loop_cons p stmts) by exact Hp.
    rewrite IH, app_assoc. reflexivity.
Qed.

Lemma merge_policy_dicts_concat (ps : list json) (sts : list (list json)) :
  Forall2 is_policy_document ps sts ->
  merge_policy_dicts ps = Ok (merged (concat sts)).
Proof.
  intros Hps. unfold merge_policy_dicts.
  rewrite (merge_loop_concat ps sts Hps). reflexivity.
Qed.

(** C4: on policy documents, each a mapping or text that deserializes to
    one, [merge_policy_dicts] returns the document with Version
    2012-10-17 whose statements are the inputs' statements concatenated in
    order; for two documents that is the first one's statements followed
    by the second one's, and for no document it is the empty sequence. *)
Theorem merge_policy_dicts_spec
    (ps : list json) (sts : list (list json)) (A B : json) (sa sb : list json) :
  Forall2 is_policy_document ps sts ->
  is_policy_document A sa ->
  is_policy_document B sb ->
  merge_policy_dicts ps
  = Ok (JDict [("Version", JStr "2012-10-17"); ("Statement", JList (concat sts))])
  /\ merge_policy_dicts [A; B]
     = Ok (JDict [("Version", JStr "2012-10-17"); ("Statement", JList (sa ++ sb)%list)])
  /\ merge_policy_dicts []
     = Ok (JDict [("Version", JStr "2012-10-17"); ("Statement", JList [])]).
Proof.
  intros Hps HA HB. repeat split.
  - apply merge_policy_dicts_concat, Hps.
  - rewrite (merge_policy_dicts_concat [A; B] [sa; sb]).
    + simpl. rewrite app_nil_r. reflexivity.
    + repeat constructor; assumption.
Qed.

End Merger.

Lemma merge_policy_dicts_spec_witness :
  @merge_policy_dicts Demo.json_module
    [merged [Demo.allow_statement "s3:*"]; JStr Demo.scp_text]
  = Ok (merged [Demo.allow_statement "s3:*"; Demo.deny_statement]).
Proof.
  assert (Hdict : forall stmts,
             @is_policy_document Demo.json_module (merged stmts) stmts).
  { intros stmts. eexists. split; [left; reflexivity | reflexivity]. }
  assert (Htext : @is_policy_document Demo.json_module
                    (JStr Demo.scp_text) [Demo.deny_statement]).
  { exists Demo.scp_document. split; [right | reflexivity].
    exists Demo.scp_text. split; reflexivity. }
  apply (@merge_policy_dicts_spec Demo.json_module
           [merged [Demo.allow_statement "s3:*"]; JStr Demo.scp_text]
           [[Demo.allow_statement "s3:*"]; [Demo.deny_statement]]
           (merged []) (JStr Demo.scp_text) [] [Demo.deny_statement]).
  - constructor; [apply Hdict|]. constructor; [apply Htext | constructor].
  - apply Hdict.
  - apply Htext.
Defined.

(* ================================================================== *)
(** * Traced computations *)

Lemma mbind_Ok_inv {A B} (c : M A) (k : A -> M B) (b : B) (t : list event) :
  mbind c k = (Ok b, t) ->
  exists a t1 t2, c = (Ok a, t1) /\ k a = (Ok b, t2) /\ t = (t1 ++ t2)%list.
Proof.
  destruct c as [[a|e] t1]; simpl; [|discriminate].
  destruct (k a) as [r t2] eqn:Ek. intros Heq.
  injection Heq as -> <-. exists a, t1, t2. auto.
Qed.

Lemma lift_Ok_inv {A} (r : result A) (a : A) (t : list event) :
  lift r = (Ok a, t) -> r = Ok a /\ t = [].
Proof. unfold lift. intros Heq. injection Heq as -> <-. auto. Qed.

Lemma ret_Ok_inv {A} (a b : A) (t : list event) :
  ret a = (Ok b, t) -> a = b /\ t = [].
Proof. unfold ret. intros Heq. injection Heq as -> <-. auto. Qed.

(** An event of a sequence comes from its first part or from the rest. *)
Lemma mbind_trace {A B} (c : M A) (k : A -> M B) (e : event) :
  In e (snd (mbind c k)) ->
  In e (snd c) \/ exists a, fst c = Ok a /\ In e (snd (k a)).
Proof.
  destruct c as [[a|x] t1]; simpl; [|auto].
  destruct (k a) as [r t2] eqn:Ek. simpl. intros Hin.
  apply in_app_or in Hin as [Hin|Hin]; [auto|].
  right. exists a. rewrite Ek. auto.
Qed.

Lemma mmap_trace {A B} (f : A -> M B) (P : event -> Prop) (xs : list A) :
  (forall x e, In e (snd (f x)) -> P e) ->
  forall e, In e (snd (mmap f xs)) -> P e.
Proof.
  intros Hf. induction xs as [|x rest IH]; simpl; intros e Hin; [contradiction|].
  apply mbind_trace in Hin as [Hin | (y & _ & Hin)]; [eauto|].
  apply mbind_trace in Hin as [Hin | (ys & _ & Hin)]; [eauto|].
  simpl in Hin. contradiction.
Qed.

Lemma get_scps_for_account_trace (n : option string) (cm : ClientMaker) (e : event) :
  In e (snd (get_scps_for_account n cm)) -> is_organizations_request e.
Proof.
  unfold get_scps_for_account. intros Hin.
  apply mbind_trace in Hin as [Hin | (scps & _ & Hin)].
  - simpl in Hin. destruct Hin as [<-|[]]. exact I.
  - revert e Hin. apply mmap_trace. intros scp e Hin.
    apply mbind_trace in Hin as [Hin | (c & _ & Hin)].
    + simpl in Hin. destruct Hin as [<-|[]]. exact I.
    + simpl in Hin. contradiction.
Qed.

(** The first target id sent to Organizations is the one asked for. *)
Lemma get_scps_for_account_first_request (n : option string) (cm : ClientMaker) :
  exists rest,
    snd (get_scps_for_account n cm) = Call_list_policies_for_target n :: rest.
Proof.
  unfold get_scps_for_account, call, mbind.
  destruct (list_policies_for_target cm n) as [scps|x]; [|simpl; eauto].
  destruct (mmap _ scps) as [r t]. simpl. eauto.
Qed.

(* ================================================================== *)
(** * The Policy Container *)

Ltac invert_step H :=
  first
    [ apply lift_Ok_inv in H as [H ->]
    | apply ret_Ok_inv in H as [H ->]
    | let t1 := fresh "t" in
      let t2 := fresh "t" in
      let H1 := fresh "Hstep" in
      apply mbind_Ok_inv in H as (? & t1 & t2 & H1 & H & ->); cbv beta in H ].

(** The group helper answers the empty list whenever it answers. *)
Lemma get_group_policy_documents_for_resource_nil (resource : IamPrincipal) (l : list json) :
  get_group_policy_documents_for_resource resource = Ok l -> l = [].
Proof.
  unfold get_group_policy_documents_for_resource.
  destruct (groups resource) as [[gs|x]|]; simpl; try discriminate.
  - destruct (for_extend _ gs []); simpl; [|discriminate]. congruence.
  - congruence.
Qed.

(** The evaluation of the caller-account fallback sends no request. *)
Lemma account_fallback_trace (arn : ARN) (cm : ClientMaker) (n : option string)
    (t : list event) :
  (if truthy (account_id arn) then ret (account_id arn)
   else n <~ lift (account_number cm) ;; ret (Some n)) = (Ok n, t) ->
  t = [].
Proof.
  destruct (truthy (account_id arn)).
  - intros Heq. apply ret_Ok_inv in Heq as [_ ->]. reflexivity.
  - unfold lift, ret, mbind. destruct (account_number cm); intros Heq;
      injection Heq as _ <-; reflexivity.
Qed.

Section Container.

Context `{Json}.

(** C1: after every construction of a Policy Container, the restrict-side
    policy is None exactly when there was no permission boundary and the
    account lookup (when enabled) found no policy; as soon as there is a
    candidate the container holds the one-element list with the merge of
    all candidates; and every call of [merge_policy_dicts] made during the
    construction had a non-empty argument. *)
Theorem PolicyContainer_restrict_policy
    (a : ARN) (c : ClientMaker) (collect_scps : bool)
    (pc : PolicyContainer) (t : list event) :
  PolicyContainer_init a c collect_scps = (Ok pc, t) ->
  exists resource boundary bdocs scps,
    arn_to_iam_resource a c = Ok resource
    /\ permissions_boundary resource = Ok boundary
    /\ match boundary with
       | Some b => exists d, document (iam_Policy c (PermissionsBoundaryArn b)) = Ok d
                             /\ bdocs = [d]
       | None => bdocs = []
       end
    /\ (if collect_scps
        then fst (get_scps_for_account (account_id a) c) = Ok scps
        else scps = [])
    /\ (negative_policies pc = None <-> boundary = None /\ scps = [])
    /\ ((bdocs ++ scps)%list <> [] ->
        exists m, merge_policy_dicts (bdocs ++ scps)%list = Ok m
                  /\ negative_policies pc = Some [m])
    /\ (forall ps, In (Call_merge_policy_dicts ps) t -> ps <> []).
Proof.
  intros Hinit. unfold PolicyContainer_init in Hinit. cbv zeta in Hinit.
  simpl app in Hinit.
  do 7 invert_step Hinit.
  apply ret_Ok_inv in Hinit as [<- ->]. simpl negative_policies.
  apply lift_Ok_inv in Hstep as [Hres ->].
  apply lift_Ok_inv in Hstep0 as [_ ->].
  apply lift_Ok_inv in Hstep1 as [_ ->].
  apply lift_Ok_inv in Hstep2 as [Hpb ->].
  rename x into resource, x2 into boundary, x3 into bdocs, x4 into negs,
         x5 into held.
  (* the permission boundary *)
  assert (Hb : t3 = [] /\
               match boundary with
               | Some b => exists d,
                   document (iam_Policy c (PermissionsBoundaryArn b)) = Ok d
                   /\ bdocs = [d]
               | None => bdocs = []
               end).
  { destruct boundary as [b|].
    - invert_step Hstep3. apply lift_Ok_inv in Hstep as [Hd ->].
      apply ret_Ok_inv in Hstep3 as [<- ->]. eauto.
    - apply ret_Ok_inv in Hstep3 as [<- ->]. auto. }
  destruct Hb as [-> Hb].
  (* the account's policies *)
  assert (Hs : exists scps,
             (if collect_scps
              then fst (get_scps_for_account (account_id a) c) = Ok scps
              else scps = [])
             /\ negs = (bdocs ++ scps)%list
             /\ forall e, In e t4 -> is_organizations_request e).
  { destruct collect_scps.
    - invert_step Hstep4. apply account_fallback_trace in Hstep as ->.
      invert_step Hstep4. apply ret_Ok_inv in Hstep4 as [<- ->].
      match goal with
      | Hs : get_scps_for_account _ _ = (Ok ?l, _) |- _ => exists l
      end.
      rewrite Hstep. repeat split.
      intros e Hin. simpl in Hin. rewrite app_nil_r in Hin.
      apply (get_scps_for_account_trace (account_id a) c).
      rewrite Hstep. exact Hin.
    - apply ret_Ok_inv in Hstep4 as [<- ->]. exists [].
      rewrite app_nil_r. repeat split. intros e []. }
  destruct Hs as (scps & Hscps & -> & Horg).
  (* the merge *)
  assert (Hm : ((bdocs ++ scps)%list = [] /\ held = None /\ t5 = [])
               \/ ((bdocs ++ scps)%list <> []
                   /\ t5 = [Call_merge_policy_dicts (bdocs ++ scps)%list]
                   /\ exists m, merge_policy_dicts (bdocs ++ scps)%list = Ok m
                                /\ held = Some [m])).
  { destruct (bdocs ++ scps)%list as [|p ps] eqn:Ecands; simpl in Hstep5.
    - apply ret_Ok_inv in Hstep5 as [<- ->]. auto.
    - right. destruct (merge_policy_dicts (p :: ps)) as [m|x]; [|discriminate].
      injection Hstep5 as <- <-.
      repeat split; [discriminate | eauto]. }
  exists resource, boundary, bdocs, scps.
  repeat match goal with |- _ /\ _ => split end; try assumption.
  - (* None exactly when nothing was found *)
    destruct Hm as [(Hnil & -> & _) | (Hne & _ & m & _ & ->)].
    + apply app_eq_nil in Hnil as [-> ->].
      destruct boundary as [b|]; [destruct Hb as (d & _ & [=])|]. tauto.
    + split; [discriminate|]. intros [-> ->]. subst bdocs. contradiction.
  - (* one merged document otherwise *)
    intros Hne. destruct Hm as [(Hnil & _) | (_ & _ & Hm)]; [contradiction|].
    exact Hm.
  - (* merge is only called on candidates *)
    intros ps Hin. simpl in Hin.
    apply in_app_or in Hin as [Hin|Hin]; [apply Horg in Hin; contradiction|].
    rewrite app_nil_r in Hin.
    destruct Hm as [(_ & _ & ->) | (Hne & -> & _)]; [contradiction|].
    destruct Hin as [[= <-]|[]]. exact Hne.
Qed.

End Container.

Lemma PolicyContainer_restrict_policy_witness :
  exists pc t,
    @PolicyContainer_init Demo.json_module Demo.user_arn Demo.account true = (Ok pc, t)
    /\ negative_policies pc = Some [merged [Demo.deny_statement]]
    /\ forall ps, In (Call_merge_policy_dicts ps) t -> ps <> [].
Proof.
  eexists. eexists. split; [vm_compute; reflexivity|].
  split; [reflexivity|].
  destruct (@PolicyContainer_restrict_policy Demo.json_module
              Demo.user_arn Demo.account true _ _ eq_refl)
    as (_ & _ & _ & _ & _ & _ & _ & _ & _ & _ & Htrace).
  exact Htrace.
Defined.

(** Reading a collection of policies whose documents all load gives the
    documents in the collection's order, after what was gathered before. *)
Lemma for_extend_documents (ps : list IamPolicy) (ds acc : list json) :
  Forall2 (fun p d => document p = Ok d) ps ds ->
  for_extend (fun policy => d <- document policy ;; Ok [d]) ps acc
  = Ok (acc ++ ds)%list.
Proof.
  intros Hdocs. revert acc.
  induction Hdocs as [|p d ps ds Hd _ IH]; intros acc; simpl.
  - rewrite app_nil_r. reflexivity.
  - rewrite Hd. simpl. rewrite IH, <- app_assoc. reflexivity.
Qed.

(** The documents of a user, role or group: attached ones, then inline
    ones. *)
Lemma get_policy_documents_for_resource_order
    (resource : IamEntity) (ps qs : list IamPolicy) (ds es : list json) :
  attached_policies resource = Ok ps ->
  inline_policies resource = Ok qs ->
  Forall2 (fun p d => document p = Ok d) ps ds ->
  Forall2 (fun p d => document p = Ok d) qs es ->
  get_policy_documents_for_resource resource = Ok (ds ++ es)%list.
Proof.
  intros Ha Hi Hds Hes. unfold get_policy_documents_for_resource.
  rewrite Ha. simpl. rewrite (for_extend_documents ps ds [] Hds). simpl.
  rewrite Hi. simpl. apply for_extend_documents, Hes.
Qed.

(** The allow-side list of every container is the principal's own
    documents: the group helper contributes nothing. *)
Lemma PolicyContainer_policies `{Json} (a : ARN) (c : ClientMaker)
    (collect_scps : bool) (pc : PolicyContainer) (t : list event) :
  PolicyContainer_init a c collect_scps = (Ok pc, t) ->
  exists resource,
    arn_to_iam_resource a c = Ok resource
    /\ get_policy_documents_for_resource resource = Ok (policies pc).
Proof.
  intros Hinit. unfold PolicyContainer_init in Hinit. cbv zeta in Hinit.
  simpl app in Hinit.
  do 7 invert_step Hinit.
  apply ret_Ok_inv in Hinit as [<- _]. simpl policies.
  apply lift_Ok_inv in Hstep as [Hres _].
  apply lift_Ok_inv in Hstep0 as [Hdirect _].
  apply lift_Ok_inv in Hstep1 as [Hgroup _].
  apply get_group_policy_documents_for_resource_nil in Hgroup. subst.
  rewrite app_nil_r. eauto.
Qed.

(** C2: for user alice, whose group admins has one attached policy, the
    group's documents are read, yet the container's allow-side list holds
    the user's own inline policy only: the group component the claim
    requires is missing. *)
Theorem PolicyContainer_drops_group_policies :
  ARN_from_string "arn:aws:iam::123456789012:user/alice" = Ok Demo.user_arn
  /\ groups (iam_User Demo.account (resource_id Demo.user_arn))
     = Some (Ok [Demo.admins])
  /\ get_policy_documents_for_resource Demo.admins
     = Ok [merged [Demo.allow_statement "iam:*"]]
  /\ get_group_policy_documents_for_resource
       (iam_User Demo.account (resource_id Demo.user_arn)) = Ok []
  /\ exists pc t,
       @PolicyContainer_init Demo.json_module Demo.user_arn Demo.account false
       = (Ok pc, t)
       /\ policies pc = [merged [Demo.allow_statement "s3:GetObject"]].
Proof.
  repeat split. eexists. eexists. split; [vm_compute; reflexivity | reflexivity].
Qed.

(** Every target id the constructor sends to Organizations is the account
    field of the reference, set or not. *)
Lemma get_scps_for_account_target (n m : option string) (cm : ClientMaker) :
  In (Call_list_policies_for_target m) (snd (get_scps_for_account n cm)) -> m = n.
Proof.
  unfold get_scps_for_account. intros Hin.
  apply mbind_trace in Hin as [Hin | (scps & _ & Hin)].
  - simpl in Hin. destruct Hin as [[= ->]|[]]. reflexivity.
  - exfalso.
    assert (Hne : Call_list_policies_for_target m
                  <> Call_list_policies_for_target m); [|congruence].
    revert Hin.
    apply (mmap_trace _ (fun e => e <> Call_list_policies_for_target m) scps).
    intros scp e Hin.
    apply mbind_trace in Hin as [Hin | (c & _ & Hin)]; simpl in Hin.
    + destruct Hin as [<-|[]]. discriminate.
    + contradiction.
Qed.

Ltac trace_step Hin :=
  apply mbind_trace in Hin as [Hin | (? & _ & Hin)];
  [ try (simpl in Hin; contradiction) | ].

Lemma PolicyContainer_init_target `{Json} (a : ARN) (c : ClientMaker)
    (collect_scps : bool) (n : option string) :
  In (Call_list_policies_for_target n) (snd (PolicyContainer_init a c collect_scps)) ->
  n = account_id a.
Proof.
  unfold PolicyContainer_init. cbv zeta. intros Hin.
  do 4 trace_step Hin.
  trace_step Hin.
  { match goal with
    | Hb : In _ (snd (match ?boundary with _ => _ end)) |- _ =>
        destruct boundary as [b|]; [|simpl in Hb; contradiction]
    end.
    trace_step Hin. simpl in Hin. contradiction. }
  trace_step Hin.
  { destruct collect_scps; [|simpl in Hin; contradiction].
    trace_step Hin.
    { destruct (truthy (account_id a)); [simpl in Hin; contradiction|].
      trace_step Hin. simpl in Hin. contradiction. }
    trace_step Hin.
    - apply get_scps_for_account_target in Hin. exact Hin.
    - simpl in Hin. contradiction. }
  trace_step Hin.
  { destruct (0 <? _)%nat; [|simpl in Hin; contradiction].
    trace_step Hin.
    - simpl in Hin. destruct Hin as [[=]|[]].
    - simpl in Hin. contradiction. }
  simpl in Hin. contradiction.
Qed.

(** C3: with SCP collection enabled, a reference whose account field is
    empty, and a caller whose account number resolves to 123456789012, the
    one lookup the code sends has the empty account field as target, not
    the caller's account number; in this account the request is refused
    and the construction fails. *)
Theorem PolicyContainer_scp_lookup_ignores_fallback :
  ARN_from_string "arn:aws:iam:::user/alice" = Ok Demo.user_arn_no_account
  /\ truthy (account_id Demo.user_arn_no_account) = false
  /\ account_number Demo.account = Ok "123456789012"
  /\ @PolicyContainer_init Demo.json_module Demo.user_arn_no_account Demo.account true
     = (Raise (ClientError "InvalidInputException"),
        [Call_list_policies_for_target (Some "")]).
Proof. repeat split. Qed.

(* ================================================================== *)
(** * The Simulated Dispatch Client *)

(** [PolicyContainer.simulate] sends exactly one request, with the
    actions it was given, unless an extra argument repeats a keyword. *)
Lemma PolicyContainer_simulate_request `{Json} (self : PolicyContainer)
    (actions : list string) (args : list (string * string)) :
  repeats_keyword args = false ->
  exists request,
    snd (PolicyContainer_simulate self actions args)
    = [Call_simulate_custom_policy request]
    /\ ActionNames request = actions
    /\ CallerArn request = ARN_str (arn self).
Proof.
  intros Hargs. unfold PolicyContainer_simulate. rewrite Hargs.
  match goal with
  | |- context [Call_simulate_custom_policy ?r] => exists r
  end.
  split; [|split; reflexivity].
  unfold call, mbind.
  destruct (simulate_custom_policy _ _) as [results|x]; [|reflexivity].
  simpl. destruct (getitem results 0); reflexivity.
Qed.

(** C8: a dispatched method call whose operation has an API name in the
    service's mapping sends one simulate request, and its single action
    is the lower-cased service name, a colon and that API name; for
    service ec2 and API name DescribeInstances it is
    ec2:DescribeInstances. *)
Theorem simulate_api_action `{Json} `{Botocore} (self : SimulatedClient)
    (operation : string) (mapping : list (string * string)) (method : string) :
  method_to_api_mapping (_service self) = Ok mapping ->
  mapping_get mapping operation = Ok method ->
  exists request,
    snd (simulate_api self operation) = [Call_simulate_custom_policy request]
    /\ ActionNames request = [lower (_service self) ++ ":" ++ method]
    /\ (_service self = "ec2" -> method = "DescribeInstances" ->
        ActionNames request = ["ec2:DescribeInstances"]).
Proof.
  intros Hmap Hget. unfold simulate_api.
  rewrite Hmap. unfold lift at 1. unfold mbind at 1.
  rewrite Hget. unfold lift at 1. unfold mbind at 1.
  destruct (PolicyContainer_simulate_request (_pc self)
              [lower (_service self) ++ ":" ++ method] [] eq_refl)
    as (request & Htrace & Hactions & _).
  destruct (PolicyContainer_simulate _ _ _) as [r t] eqn:Esim.
  simpl in Htrace. subst t. exists request. simpl.
  repeat split; [exact Hactions|].
  intros Hs Hm. rewrite Hactions, Hs, Hm. reflexivity.
Qed.

Lemma simulate_api_action_witness :
  exists sc t,
    @SimulatedClient_init Demo.json_module "ec2" false Demo.account = (Ok sc, t)
    /\ exists request,
         snd (@simulate_api Demo.json_module Demo.botocore sc "describe_instances")
         = [Call_simulate_custom_policy request]
         /\ ActionNames request = ["ec2:DescribeInstances"].
Proof.
  eexists. eexists. split; [vm_compute; reflexivity|].
  match goal with
  | |- context [simulate_api ?sc _] =>
      destruct (@simulate_api_action Demo.json_module Demo.botocore sc
                  "describe_instances" _ "DescribeInstances" eq_refl eq_refl)
        as (request & Htrace & _ & Hec2)
  end.
  exists request. split; [exact Htrace|]. apply Hec2; reflexivity.
Defined.

(* ================================================================== *)
(** * More on the string operations *)

(** Cutting at a separator cuts each side on its own. *)
Lemma split_app (sep : ascii) (s t : string) :
  split sep (s ++ String sep t) = (split sep s ++ split sep t)%list.
Proof.
  induction s as [|c s IH]; simpl.
  - rewrite Ascii.eqb_refl. reflexivity.
  - destruct (Ascii.eqb c sep); rewrite IH; [reflexivity|].
    pose proof (split_not_nil sep s) as Hne.
    destruct (split sep s) as [|h tl]; [congruence | reflexivity].
Qed.

(** Joining the pieces with the separator gives the string back. *)
Lemma join_split (sep : ascii) (s : string) :
  join (String sep EmptyString) (split sep s) = s.
Proof.
  induction s as [|c s IH]; [reflexivity|]. simpl split.
  pose proof (split_not_nil sep s) as Hne.
  destruct (Ascii.eqb_spec c sep) as [->|_].
  - destruct (split sep s) as [|h tl]; [congruence|].
    change (join (String sep "") ("" :: h :: tl))
      with (String sep (join (String sep "") (h :: tl))).
    rewrite IH. reflexivity.
  - destruct (split sep s) as [|h tl]; [congruence|].
    destruct tl as [|h' tl].
    + simpl in *. rewrite IH. reflexivity.
    + change (join (String sep "") (String c h :: h' :: tl))
        with (String c (join (String sep "") (h :: h' :: tl))).
      rewrite IH. reflexivity.
Qed.

Lemma append_inj_l (s t1 t2 : string) : s ++ t1 = s ++ t2 -> t1 = t2.
Proof.
  induction s as [|c s IH]; simpl; intros Heq; [exact Heq|].
  injection Heq as Heq. auto.
Qed.

(** Six colon-free pieces joined by colons are cut back into them. *)
Lemma split_six (p0 p1 p2 p3 p4 p5 : string) :
  contains ":" p0 = false -> contains ":" p1 = false ->
  contains ":" p2 = false -> contains ":" p3 = false ->
  contains ":" p4 = false -> contains ":" p5 = false ->
  split ":" (p0 ++ ":" ++ p1 ++ ":" ++ p2 ++ ":" ++ p3 ++ ":" ++ p4 ++ ":" ++ p5)
  = [p0; p1; p2; p3; p4; p5].
Proof.
  intros H0 H1 H2 H3 H4 H5.
  change ":" with (String ":" EmptyString) at 1 2 3 4 5.
  simpl String.append.
  repeat (rewrite split_first_piece by assumption).
  rewrite split_without_sep by assumption. reflexivity.
Qed.

(* ================================================================== *)
(** * More on Identity References *)

(** With six parts, the sixth being [rt/rid] with no slash in [rt], the
    parts before it are kept, [rt] is lower-cased and [rid] is kept whole. *)
Lemma from_string_six_slash_parts (s p0 p1 p2 p3 p4 rt rid : string) :
  split ":" s = [p0; p1; p2; p3; p4; rt ++ "/" ++ rid] ->
  contains "/" rt = false ->
  ARN_from_string s
  = Ok (mkARN (Some p0) (Some p1) (Some p2) (Some p3) (Some p4)
              (Some (lower rt)) (Some rid)).
Proof.
  intros Hparts Hrt. unfold ARN_from_string, split_arn_string.
  rewrite Hparts. simpl List.length. simpl Nat.eqb. cbv iota.
  unfold getitem at 1. simpl nth_error. simpl rbind.
  rewrite contains_app. simpl contains at 2. rewrite orb_true_r.
  change (rt ++ "/" ++ rid) with (rt ++ String "/" rid).
  rewrite (split_first_piece "/" rt rid Hrt).
  simpl. rewrite (join_split "/" rid). reflexivity.
Qed.

(** A string that holds the separator has a first piece before it. *)
Lemma contains_first_piece (sep : ascii) (s : string) :
  contains sep s = true ->
  exists h t, s = h ++ String sep t /\ contains sep h = false.
Proof.
  induction s as [|c s IH]; simpl; [discriminate|].
  destruct (Ascii.eqb_spec c sep) as [->|Hne]; simpl.
  - intros _. exists EmptyString, s. auto.
  - intros Hc. destruct (IH Hc) as (h & t & -> & Hh).
    exists (String c h), t. split; [reflexivity|]. simpl.
    destruct (Ascii.eqb_spec c sep) as [|_]; [contradiction|]. exact Hh.
Qed.

Lemma length_six {A} (l : list A) :
  List.length l = 6%nat -> exists a b c d e f, l = [a; b; c; d; e; f].
Proof.
  destruct l as [|a [|b [|c [|d [|e [|f [|g l]]]]]]]; try discriminate.
  intros _. repeat eexists.
Qed.

(** The slash branch of [split_arn_string] always yields a reference. *)
Lemma slash_branch_parses (s p5 : string) :
  List.length (split ":" s) = 6%nat ->
  nth_error (split ":" s) 5 = Some p5 ->
  contains "/" p5 = true ->
  exists a, ARN_from_string s = Ok a.
Proof.
  intros Hlen Hnth Hslash.
  destruct (length_six _ Hlen) as (p0 & p1 & p2 & p3 & p4 & q & Hparts).
  rewrite Hparts in Hnth. simpl in Hnth. injection Hnth as ->.
  destruct (contains_first_piece "/" p5 Hslash) as (rt & rid & -> & Hrt).
  eexists. apply (from_string_six_slash_parts s p0 p1 p2 p3 p4 rt rid); assumption.
Qed.

(** X1: every string with exactly six colon-separated parts whose sixth
    part is an ASCII resource type without slash, a slash and a resource
    id is parsed: the first five parts become the first five fields, the
    resource type is lower-cased, and everything after the first slash
    (further slashes included) is the resource id.  When the resource type
    is already in lower case, rendering the parsed reference gives the
    input string back. *)
Theorem from_string_six_parts_slash (s rt rid : string) :
  List.length (split ":" s) = 6%nat ->
  nth_error (split ":" s) 5 = Some (rt ++ "/" ++ rid) ->
  contains "/" rt = false ->
  is_ascii rt = true ->
  exists a,
    ARN_from_string s = Ok a
    /\ [prefix a; partition a; service a; region a; account_id a]
       = map Some (firstn 5 (split ":" s))
    /\ resource_type a = Some (lower rt)
    /\ resource_id a = Some rid
    /\ (lower rt = rt -> ARN_str a = s).
Proof.
  intros Hlen Hnth Hrt _.
  destruct (length_six _ Hlen) as (p0 & p1 & p2 & p3 & p4 & q & Hparts).
  rewrite Hparts in Hnth. simpl in Hnth. injection Hnth as ->.
  exists (mkARN (Some p0) (Some p1) (Some p2) (Some p3) (Some p4)
                (Some (lower rt)) (Some rid)).
  split; [apply from_string_six_slash_parts; assumption|].
  rewrite Hparts. repeat split.
  intros Hlower. unfold ARN_str. simpl. rewrite Hlower.
  rewrite <- (join_split ":" s) at 1. rewrite Hparts. reflexivity.
Qed.

Lemma from_string_six_parts_slash_witness :
  exists a,
    ARN_from_string "arn:aws:iam::123456789012:User/team/alice" = Ok a
    /\ [prefix a; partition a; service a; region a; account_id a]
       = [Some "arn"; Some "aws"; Some "iam"; Some ""; Some "123456789012"]
    /\ resource_type a = Some "user"
    /\ resource_id a = Some "team/alice"
    /\ (lower "User" = "User" ->
        ARN_str a = "arn:aws:iam::123456789012:User/team/alice").
Proof.
  apply (from_string_six_parts_slash
           "arn:aws:iam::123456789012:User/team/alice" "User" "team/alice");
    reflexivity.
Defined.

(** X2: a reference whose seven fields are all set, hold no colon, and
    whose resource type is ASCII text with no slash and no upper-case
    letter is parsed back from its rendering. *)
Theorem from_string_ARN_str (p0 p1 p2 p3 p4 rt rid : string) :
  let a := mkARN (Some p0) (Some p1) (Some p2) (Some p3) (Some p4)
                 (Some rt) (Some rid) in
  colon_free a = true ->
  contains "/" rt = false ->
  is_ascii rt = true ->
  lower rt = rt ->
  ARN_from_string (ARN_str a) = Ok a.
Proof.
  intros a Hfree Hrt _ Hlower. subst a.
  unfold colon_free in Hfree. simpl in Hfree.
  repeat (apply andb_true_iff in Hfree as [?H Hfree]).
  repeat match goal with
         | H : negb _ = true |- _ => apply negb_true_iff in H
         end.
  rewrite (from_string_six_slash_parts _ p0 p1 p2 p3 p4 rt rid).
  - rewrite Hlower. reflexivity.
  - unfold ARN_str. simpl fmt. apply split_six; try assumption.
    rewrite !contains_app. simpl.
    repeat match goal with
           | H : contains _ _ = false |- _ => rewrite H
           end.
    reflexivity.
  - exact Hrt.
Qed.

Lemma from_string_ARN_str_witness :
  let a := mkARN (Some "arn") (Some "aws") (Some "iam") (Some "")
                 (Some "123456789012") (Some "role") (Some "path/to/MyRole") in
  ARN_from_string (ARN_str a) = Ok a.
Proof.
  apply (from_string_ARN_str "arn" "aws" "iam" "" "123456789012" "role"
                             "path/to/MyRole"); reflexivity.
Defined.

(** X3: parsing raises in two cases only: [IndexError] exactly for the
    strings with six colon-separated parts and no slash in the sixth, and
    [TypeError] exactly for the strings with more than seven parts. *)
Theorem from_string_errors (s : string) :
  (ARN_from_string s = Raise IndexError
   <-> List.length (split ":" s) = 6%nat
       /\ exists p5, nth_error (split ":" s) 5 = Some p5 /\ contains "/" p5 = false)
  /\ (ARN_from_string s = Raise TypeError <-> (7 < List.length (split ":" s))%nat)
  /\ forall e, ARN_from_string s = Raise e -> e = IndexError \/ e = TypeError.
Proof.
  assert (Hcases :
    (List.length (split ":" s) = 6%nat
     /\ exists p5, nth_error (split ":" s) 5 = Some p5
                   /\ contains "/" p5 = false
                   /\ ARN_from_string s = Raise IndexError)
    \/ ((7 < List.length (split ":" s))%nat /\ ARN_from_string s = Raise TypeError)
    \/ ((List.length (split ":" s) <= 7)%nat
        /\ (List.length (split ":" s) = 6%nat ->
            exists p5, nth_error (split ":" s) 5 = Some p5
                       /\ contains "/" p5 = true)
        /\ exists a, ARN_from_string s = Ok a)).
  { destruct (Nat.eq_dec (List.length (split ":" s)) 6) as [Hsix|Hnot6].
    - destruct (getitem_in_range (split ":" s) 5) as (p5 & _ & Hnth); [lia|].
      destruct (contains "/" p5) eqn:Hslash.
      + right. right. split; [lia|]. split; [eauto|].
        destruct (slash_branch_parses s p5 Hsix Hnth Hslash)
          as (a & Ha). eauto.
      + left. split; [exact Hsix|]. exists p5. repeat split; try assumption.
        unfold ARN_from_string.
        rewrite (split_arn_string_no_slash s p5 Hsix Hnth Hslash). reflexivity.
    - assert (Hsplit : split_arn_string s = Ok (split ":" s)).
      { unfold split_arn_string.
        destruct (Nat.eqb_spec (List.length (split ":" s)) 6); [contradiction|].
        reflexivity. }
      unfold ARN_from_string. rewrite Hsplit. simpl. unfold ARN_init.
      destruct (Nat.ltb_spec 7 (List.length (split ":" s))) as [Hlong|Hshort].
      + right. left. auto.
      + right. right. split; [exact Hshort|]. split; [contradiction|]. eauto. }
  destruct Hcases as [(Hsix & p5 & Hnth & Hslash & Herr)
                     | [(Hlong & Herr) | (Hshort & Hsl & a & Hok)]];
    rewrite ?Herr, ?Hok.
  - split; [|split].
    + split; [eauto | reflexivity].
    + split; [discriminate | lia].
    + intros e [= <-]. auto.
  - split; [|split].
    + split; [discriminate | intros (Hsix & _); lia].
    + split; [intros _; exact Hlong | reflexivity].
    + intros e [= <-]. auto.
  - split; [|split].
    + split; [discriminate|].
      intros (Hsix & p5 & Hnth & Hslash).
      destruct (Hsl Hsix) as (q & Hq & Hslash'). congruence.
    + split; [discriminate | lia].
    + discriminate.
Qed.

(** X4: a string with seven colon-separated parts is parsed with the
    parts as the seven fields, verbatim (the sixth is not lower-cased and
    slashes are not looked at); its rendering puts a slash where the last
    colon was, so it differs from the input. *)
Theorem from_string_seven_parts (s p0 p1 p2 p3 p4 p5 p6 : string) :
  split ":" s = [p0; p1; p2; p3; p4; p5; p6] ->
  let a := mkARN (Some p0) (Some p1) (Some p2) (Some p3) (Some p4)
                 (Some p5) (Some p6) in
  ARN_from_string s = Ok a
  /\ ARN_str a = p0 ++ ":" ++ p1 ++ ":" ++ p2 ++ ":" ++ p3 ++ ":" ++ p4 ++ ":"
                 ++ p5 ++ "/" ++ p6
  /\ ARN_str a <> s.
Proof.
  intros Hparts a. subst a. split; [|split].
  - unfold ARN_from_string, split_arn_string. rewrite Hparts. reflexivity.
  - reflexivity.
  - rewrite <- (join_split ":" s), Hparts. unfold ARN_str. simpl.
    intros Heq.
    do 5 (apply append_inj_l in Heq; injection Heq as Heq).
    apply append_inj_l in Heq. discriminate.
Qed.

Lemma from_string_seven_parts_witness :
  ARN_from_string "arn:aws:sns:us-east-1:123456789012:Topic:orders"
  = Ok (mkARN (Some "arn") (Some "aws") (Some "sns") (Some "us-east-1")
              (Some "123456789012") (Some "Topic") (Some "orders")).
Proof.
  apply (from_string_seven_parts
           "arn:aws:sns:us-east-1:123456789012:Topic:orders"
           "arn" "aws" "sns" "us-east-1" "123456789012" "Topic" "orders").
  reflexivity.
Defined.

(* ================================================================== *)
(** * log_params *)

Lemma getitem_neg_last_two {A} (l : list A) (a b : A) :
  getitem_neg (l ++ [a; b]) 2 = Ok a /\ getitem_neg (l ++ [a; b]) 1 = Ok b.
Proof.
  unfold getitem_neg, getitem. rewrite length_app. simpl List.length.
  destruct (Nat.leb_spec 2 (List.length l + 2)) as [_|]; [|lia].
  destruct (Nat.leb_spec 1 (List.length l + 2)) as [_|]; [|lia].
  replace (List.length l + 2 - 2)%nat with (List.length l + 0)%nat by lia.
  replace (List.length l + 2 - 1)%nat with (List.length l + 1)%nat by lia.
  rewrite !nth_error_app2 by lia.
  replace (List.length l + 0 - List.length l)%nat with 0%nat by lia.
  replace (List.length l + 1 - List.length l)%nat with 1%nat by lia.
  split; reflexivity.
Qed.

(** X5: for an event name that ends in [.service.operation] (as the names
    of the provide-client-params events do) and a context that holds the
    client region, the logged line is the serialization of service,
    operation, the request parameters and the region, in that order. *)
Theorem log_params_line `{Json} (params : json) (kwargs : pydict json)
    (head service operation : string) (region : json) :
  dict_lookup kwargs "event_name"
  = Some (JStr (head ++ "." ++ service ++ "." ++ operation)) ->
  contains "." service = false ->
  contains "." operation = false ->
  client_region kwargs = Ok region ->
  log_params params kwargs
  = Ok (json_dumps (JDict [("service", JStr service); ("operation", JStr operation);
                           ("params", params); ("region", region)])).
Proof.
  intros Hname Hs Ho Hregion. unfold log_params. rewrite Hname.
  cbn [split_dots rbind].
  change (head ++ "." ++ service ++ "." ++ operation)
    with (head ++ String "." (service ++ String "." operation)).
  rewrite split_app, (split_first_piece "." service operation Hs).
  rewrite (split_without_sep "." operation Ho).
  destruct (getitem_neg_last_two (split "." head) service operation) as [H2 H1].
  rewrite H2. cbn [rbind]. rewrite H1. cbn [rbind]. rewrite Hregion. reflexivity.
Qed.

Lemma log_params_line_witness :
  @log_params Demo.json_module (JDict [("MaxResults", JNum 5)])
    [("event_name", JStr "provide-client-params.ec2.DescribeInstances");
     ("context", JDict [("client_region", JStr "us-east-1")])]
  = Ok (Demo.dumps (JDict [("service", JStr "ec2");
                           ("operation", JStr "DescribeInstances");
                           ("params", JDict [("MaxResults", JNum 5)]);
                           ("region", JStr "us-east-1")])).
Proof.
  apply (@log_params_line Demo.json_module _ _ "provide-client-params"
           "ec2" "DescribeInstances" (JStr "us-east-1")); reflexivity.
Defined.

(** X6: an event name without a dot makes [log_params] raise
    [IndexError], whatever the parameters and the context are. *)
Theorem log_params_no_dot `{Json} (params : json) (kwargs : pydict json)
    (name : string) :
  dict_lookup kwargs "event_name" = Some (JStr name) ->
  contains "." name = false ->
  log_params params kwargs = Raise IndexError.
Proof.
  intros Hname Hdot. unfold log_params. rewrite Hname.
  cbn [split_dots rbind].
  rewrite (split_without_sep "." name Hdot). reflexivity.
Qed.

Lemma log_params_no_dot_witness :
  @log_params Demo.json_module JNull
    [("event_name", JStr "before-call");
     ("context", JDict [("client_region", JStr "us-east-1")])]
  = Raise IndexError.
Proof.
  apply (@log_params_no_dot Demo.json_module _ _ "before-call"); reflexivity.
Defined.

(* ================================================================== *)
(** * util.py: merge_dicts *)

Section Dicts.

Context {V : Type}.

Implicit Types (d : pydict V) (k : string) (v : V).

Lemma dict_lookup_set d k v k' :
  dict_lookup (dict_set d k v) k'
  = if String.eqb k k' then Some v else dict_lookup d k'.
Proof.
  induction d as [|[k0 v0] d IH]; simpl.
  - reflexivity.
  - destruct (String.eqb_spec k0 k) as [->|Hne]; simpl.
    + destruct (String.eqb k k'); reflexivity.
    + rewrite IH. destruct (String.eqb_spec k0 k') as [->|_]; [|reflexivity].
      destruct (String.eqb_spec k k') as [->|_]; [contradiction | reflexivity].
Qed.

Lemma dict_lookup_app d1 d2 k :
  dict_lookup (d1 ++ d2)%list k
  = match dict_lookup d1 k with
    | Some v => Some v
    | None => dict_lookup d2 k
    end.
Proof.
  induction d1 as [|[k0 v0] d1 IH]; simpl; [reflexivity|].
  destruct (String.eqb k0 k); [reflexivity | exact IH].
Qed.

(** After a run of assignments, the last one to a key is what is found. *)
Lemma dict_lookup_fold (entries : list (string * V)) d k :
  dict_lookup (fold_left (fun d kv => dict_set d (fst kv) (snd kv)) entries d) k
  = match dict_lookup (rev entries) k with
    | Some v => Some v
    | None => dict_lookup d k
    end.
Proof.
  revert d. induction entries as [|[k0 v0] entries IH]; intros d; simpl.
  - reflexivity.
  - rewrite IH, dict_lookup_app, dict_lookup_set. simpl.
    destruct (dict_lookup (rev entries) k); [reflexivity|].
    destruct (String.eqb k0 k); reflexivity.
Qed.

Lemma dict_lookup_In d k v :
  NoDup (map fst d) -> (dict_lookup d k = Some v <-> In (k, v) d).
Proof.
  induction d as [|[k0 v0] d IH]; simpl; intros Hnd.
  - split; [discriminate | contradiction].
  - inversion Hnd as [|? ? Hnotin Hnd']; subst.
    destruct (String.eqb_spec k0 k) as [->|Hne].
    + split.
      * intros [= ->]. auto.
      * intros [[= ->]|Hin]; [reflexivity|].
        exfalso. apply Hnotin. apply (in_map fst) in Hin. exact Hin.
    + rewrite (IH Hnd'). split; [auto|].
      intros [[= -> _]|Hin]; [contradiction | exact Hin].
Qed.

Lemma dict_lookup_rev d k :
  NoDup (map fst d) -> dict_lookup (rev d) k = dict_lookup d k.
Proof.
  intros Hnd.
  assert (Hnd' : NoDup (map fst (rev d))).
  { rewrite map_rev. apply NoDup_rev, Hnd. }
  destruct (dict_lookup d k) as [v|] eqn:E.
  - apply (dict_lookup_In _ _ _ Hnd'). apply in_rev. rewrite rev_involutive.
    apply (dict_lookup_In _ _ _ Hnd). exact E.
  - destruct (dict_lookup (rev d) k) as [v|] eqn:E'; [|reflexivity].
    apply (dict_lookup_In _ _ _ Hnd') in E'. apply in_rev in E'.
    apply (dict_lookup_In _ _ _ Hnd) in E'. congruence.
Qed.

(** In the merged dict the bindings of [dict2] take precedence. *)
Lemma merge_dicts_get (dict1 dict2 : option (pydict V)) k :
  NoDup (map fst (dict_value dict1)) ->
  NoDup (map fst (dict_value dict2)) ->
  dict_lookup (merge_dicts dict1 dict2) k
  = match dict_lookup (dict_value dict2) k with
    | Some v => Some v
    | None => dict_lookup (dict_value dict1) k
    end.
Proof.
  intros H1 H2. unfold merge_dicts.
  destruct dict1 as [[|e1 d1]|]; destruct dict2 as [[|e2 d2]|]; simpl negb;
    cbn [andb dict_value]; try reflexivity;
    try (destruct (dict_lookup _ k); reflexivity).
  unfold dict_of. rewrite dict_lookup_fold, rev_app_distr, dict_lookup_app.
  cbn [dict_value] in H1, H2.
  rewrite (dict_lookup_rev _ k H1), (dict_lookup_rev _ k H2).
  destruct (dict_lookup (e2 :: d2) k); [reflexivity|].
  destruct (dict_lookup (e1 :: d1) k); reflexivity.
Qed.

(** X7: on two dicts, [merge_dicts] gives a dict in which every key is
    bound as in [dict2] when [dict2] has it, and as in [dict1] otherwise;
    [None] and the empty dict count as no bindings. *)
Theorem merge_dicts_lookup (dict1 dict2 : option (pydict V)) k :
  NoDup (map fst (dict_value dict1)) ->
  NoDup (map fst (dict_value dict2)) ->
  dict_lookup (merge_dicts dict1 dict2) k
  = match dict_lookup (dict_value dict2) k with
    | Some v => Some v
    | None => dict_lookup (dict_value dict1) k
    end.
Proof. intros H1 H2. apply merge_dicts_get; assumption. Qed.

End Dicts.

Lemma merge_dicts_lookup_witness :
  dict_lookup (merge_dicts (Some [("region_name", JStr "us-east-1");
                                  ("service_name", JStr "s3")])
                           (Some [("service_name", JStr "ec2")]))
              "service_name"
  = Some (JStr "ec2").
Proof.
  apply (merge_dicts_lookup
           (Some [("region_name", JStr "us-east-1"); ("service_name", JStr "s3")])
           (Some [("service_name", JStr "ec2")]) "service_name").
  - repeat constructor; simpl; intuition discriminate.
  - repeat constructor; simpl; intuition discriminate.
Defined.

Section DictKeys.

Context {V : Type}.

Implicit Types (d : pydict V) (k : string) (v : V).

Lemma has_key_In d k : has_key d k = true <-> In k (map fst d).
Proof.
  unfold has_key. induction d as [|[k0 v0] d IH]; simpl.
  - split; [discriminate | contradiction].
  - destruct (String.eqb_spec k0 k) as [->|Hne].
    + split; auto.
    + rewrite IH. split; [auto|]. intros [Heq|Hin]; [contradiction | exact Hin].
Qed.

Lemma dict_set_keys d k v :
  map fst (dict_set d k v)
  = if has_key d k then map fst d else (map fst d ++ [k])%list.
Proof.
  unfold has_key. induction d as [|[k0 v0] d IH]; simpl; [reflexivity|].
  destruct (String.eqb_spec k0 k) as [->|Hne]; simpl; [reflexivity|].
  rewrite IH. destruct (dict_lookup d k); reflexivity.
Qed.

Lemma has_key_set d k v k' :
  has_key (dict_set d k v) k' = String.eqb k k' || has_key d k'.
Proof.
  unfold has_key. rewrite dict_lookup_set.
  destruct (String.eqb k k'); reflexivity.
Qed.

(** Keys already present keep their place; new keys follow in the order
    of their first assignment. *)
Lemma fold_dict_set_keys (entries : list (string * V)) d :
  NoDup (map fst entries) ->
  map fst (fold_left (fun d kv => dict_set d (fst kv) (snd kv)) entries d)
  = (map fst d ++ filter (fun k => negb (has_key d k)) (map fst entries))%list.
Proof.
  revert d. induction entries as [|[k0 v0] entries IH]; intros d Hnd; simpl.
  - rewrite app_nil_r. reflexivity.
  - inversion Hnd as [|? ? Hnotin Hnd']; subst.
    rewrite (IH _ Hnd'), dict_set_keys.
    assert (Hfilter :
      filter (fun k => negb (has_key (dict_set d k0 v0) k)) (map fst entries)
      = filter (fun k => negb (has_key d k)) (map fst entries)).
    { apply filter_ext_in. intros k Hin. rewrite has_key_set.
      destruct (String.eqb_spec k0 k) as [->|_]; [contradiction | reflexivity]. }
    rewrite Hfilter.
    destruct (has_key d k0); simpl; [reflexivity|].
    rewrite <- app_assoc. reflexivity.
Qed.

Lemma dict_of_keys (entries : list (string * V)) :
  NoDup (map fst entries) -> map fst (dict_of entries) = map fst entries.
Proof.
  intros Hnd. unfold dict_of. rewrite (fold_dict_set_keys _ [] Hnd). simpl.
  clear Hnd. induction (map fst entries) as [|k ks IH]; simpl; [reflexivity|].
  f_equal. exact IH.
Qed.

(** X8: the keys of the merged dict are the keys of [dict1] in their
    order, followed by the keys that only [dict2] has, in their order; no
    key occurs twice. *)
Theorem merge_dicts_keys (dict1 dict2 : option (pydict V)) :
  NoDup (map fst (dict_value dict1)) ->
  NoDup (map fst (dict_value dict2)) ->
  map fst (merge_dicts dict1 dict2)
  = (map fst (dict_value dict1)
     ++ filter (fun k => negb (has_key (dict_value dict1) k))
               (map fst (dict_value dict2)))%list
  /\ NoDup (map fst (merge_dicts dict1 dict2)).
Proof.
  intros H1 H2.
  assert (Hid : forall l : list string,
             filter (fun k => negb (has_key (@nil (string * V)) k)) l = l).
  { induction l as [|k l IH]; simpl; [reflexivity | f_equal; exact IH]. }
  assert (Hkeys :
    map fst (merge_dicts dict1 dict2)
    = (map fst (dict_value dict1)
       ++ filter (fun k => negb (has_key (dict_value dict1) k))
                 (map fst (dict_value dict2)))%list).
  { unfold merge_dicts.
    destruct dict1 as [[|e1 d1]|]; destruct dict2 as [[|e2 d2]|]; simpl negb;
      cbn [andb dict_value]; try reflexivity;
      try (cbn [map app]; rewrite ?Hid, ?app_nil_r; reflexivity).
    cbn [dict_value] in H1, H2.
    unfold dict_of. rewrite fold_left_app.
    rewrite (fold_dict_set_keys (e2 :: d2) _ H2).
    fold (dict_of (e1 :: d1)).
    rewrite (dict_of_keys _ H1). f_equal.
    apply filter_ext_in. intros k _. f_equal.
    destruct (has_key (dict_of (e1 :: d1)) k) eqn:E1;
      destruct (has_key (e1 :: d1) k) eqn:E2; try reflexivity.
    - apply has_key_In in E1. rewrite (dict_of_keys _ H1) in E1.
      apply has_key_In in E1. congruence.
    - apply has_key_In in E2. rewrite <- (dict_of_keys _ H1) in E2.
      apply has_key_In in E2. congruence. }
  split; [exact Hkeys|]. rewrite Hkeys.
  apply NoDup_app; [exact H1 | apply NoDup_filter, H2 |].
  intros k Hin1 Hin2. apply filter_In in Hin2 as [_ Hneg].
  apply has_key_In in Hin1. rewrite Hin1 in Hneg. discriminate.
Qed.

End DictKeys.

Lemma merge_dicts_keys_witness :
  map fst (merge_dicts (Some [("region_name", JStr "us-east-1");
                              ("service_name", JStr "s3")])
                       (Some [("service_name", JStr "ec2"); ("verify", JBool false)]))
  = ["region_name"; "service_name"; "verify"].
Proof.
  apply (merge_dicts_keys
           (Some [("region_name", JStr "us-east-1"); ("service_name", JStr "s3")])
           (Some [("service_name", JStr "ec2"); ("verify", JBool false)])).
  - repeat constructor; simpl; intuition discriminate.
  - repeat constructor; simpl; intuition discriminate.
Defined.

(* ================================================================== *)
(** * ClientMaker.client and ClientMaker.resource *)

Lemma dict_default (d : option (pydict json)) :
  (if negb (dict_truthy d) then [] else dict_value d) = dict_value d.
Proof. destruct d as [[|e d]|]; reflexivity. Qed.

Lemma dict_truthy_value {V} (d : pydict V) :
  (if negb (dict_truthy (Some d)) then [] else dict_value (Some d)) = d.
Proof. destruct d; reflexivity. Qed.

(** The keyword arguments both factories are called with. *)
Lemma session_resource_args (service : string) (args : option (pydict json)) (k : string) :
  NoDup (map fst (dict_value args)) ->
  dict_lookup (merge_dicts args (Some [("service_name", JStr service)])) k
  = if String.eqb "service_name" k then Some (JStr service)
    else dict_lookup (dict_value args) k.
Proof.
  intros Hnd. rewrite merge_dicts_get; [|exact Hnd|].
  - cbn [dict_value dict_lookup].
    destruct (String.eqb "service_name" k); reflexivity.
  - cbn [dict_value map fst]. repeat constructor. intros [].
Qed.

Lemma _gen_session_resource_ok `{BotocoreConfig} (session : Session)
    (user_agent resource_type service : string)
    (args config_args : option (pydict json)) :
  session_hasattr session resource_type = true ->
  NoDup (map fst (dict_value args)) ->
  has_key (dict_value config_args) "self" = false ->
  has_key (dict_value config_args) "user_agent" = false ->
  Config_init (("user_agent", JStr user_agent) :: dict_value config_args) = Ok tt ->
  has_key (dict_value args) "config" = false ->
  _gen_session_resource session user_agent resource_type
    (Some (merge_dicts args (Some [("service_name", JStr service)]))) config_args
  = Ok (mkSessionCall resource_type
          (("user_agent", JStr user_agent) :: dict_value config_args)
          (merge_dicts args (Some [("service_name", JStr service)]))).
Proof.
  intros Hattr Hnd Hself Hua Hconfig Hcfg. unfold _gen_session_resource.
  rewrite Hattr, dict_default, dict_truthy_value. unfold _gen_config.
  rewrite Hself, Hua. cbv zeta. rewrite Hconfig. simpl rbind. unfold has_key at 1.
  rewrite (session_resource_args service args "config" Hnd).
  change (String.eqb "service_name" "config") with false.
  unfold has_key in Hcfg. cbv iota.
  destruct (dict_lookup (dict_value args) "config"); [discriminate | reflexivity].
Qed.

(** X9: when [Config] accepts the maker's user agent together with
    [config_args], [client] calls the session's [client] factory with
    [service_name] bound to its [service] argument, even when
    [client_args] binds [service_name] to something else; every other
    keyword of [client_args] is passed on unchanged, and the configuration
    is built from the user agent followed by [config_args].  When
    [Config] raises, [client] raises the same error and calls nothing. *)
Theorem client_session_call_args `{BotocoreConfig} (session : Session)
    (user_agent service : string)
    (client_args config_args : option (pydict json)) :
  session_hasattr session "client" = true ->
  NoDup (map fst (dict_value client_args)) ->
  has_key (dict_value config_args) "self" = false ->
  has_key (dict_value config_args) "user_agent" = false ->
  has_key (dict_value client_args) "config" = false ->
  match Config_init (("user_agent", JStr user_agent) :: dict_value config_args) with
  | Ok _ =>
      exists c,
        client_session_call session user_agent service client_args config_args
        = Ok c
        /\ factory c = "client"
        /\ dict_lookup (call_kwargs c) "service_name" = Some (JStr service)
        /\ (forall k, k <> "service_name" ->
                      dict_lookup (call_kwargs c) k
                      = dict_lookup (dict_value client_args) k)
        /\ config c = ("user_agent", JStr user_agent) :: dict_value config_args
  | Raise e =>
      client_session_call session user_agent service client_args config_args
      = Raise e
  end.
Proof.
  intros Hattr Hnd Hself Hua Hcfg.
  destruct (Config_init _) as [[]|e] eqn:Hconfig.
  - unfold client_session_call.
    rewrite (_gen_session_resource_ok _ _ _ _ _ _ Hattr Hnd Hself Hua Hconfig Hcfg).
    eexists. split; [reflexivity|]. cbn [factory call_kwargs config].
    repeat split.
    + rewrite (session_resource_args _ _ _ Hnd). reflexivity.
    + intros k Hk. rewrite (session_resource_args _ _ _ Hnd).
      destruct (String.eqb_spec "service_name" k) as [<-|_]; [contradiction|].
      reflexivity.
  - unfold client_session_call, _gen_session_resource.
    rewrite Hattr, dict_default, dict_truthy_value. unfold _gen_config.
    rewrite Hself, Hua. cbv zeta. rewrite Hconfig. reflexivity.
Qed.

Lemma client_session_call_args_witness :
  (exists c,
     @client_session_call DemoRegions.config_module DemoRegions.session
       "simclient" "ec2"
       (Some [("service_name", JStr "s3"); ("verify", JBool false)])
       (Some [("region_name", JStr "eu-west-1")]) = Ok c
     /\ dict_lookup (call_kwargs c) "service_name" = Some (JStr "ec2")
     /\ dict_lookup (call_kwargs c) "verify" = Some (JBool false)
     /\ config c = [("user_agent", JStr "simclient");
                    ("region_name", JStr "eu-west-1")])
  /\ @client_session_call DemoRegions.config_module DemoRegions.session
       "simclient" "ec2" None (Some [("bogus_option", JNum 1)])
     = Raise TypeError.
Proof.
  split.
  - destruct (@client_session_call_args DemoRegions.config_module
                DemoRegions.session "simclient" "ec2"
                (Some [("service_name", JStr "s3"); ("verify", JBool false)])
                (Some [("region_name", JStr "eu-west-1")]))
      as (c & Hc & _ & Hname & Hother & Hconfig);
      [ reflexivity
      | repeat constructor; simpl; intuition discriminate
      | reflexivity | reflexivity | reflexivity | ].
    exists c. repeat split; try assumption.
    rewrite Hother; [reflexivity | discriminate].
  - apply (@client_session_call_args DemoRegions.config_module
             DemoRegions.session "simclient" "ec2" None
             (Some [("bogus_option", JNum 1)]));
      [ reflexivity | constructor | reflexivity | reflexivity | reflexivity ].
Defined.



(* ================================================================== *)
(** * ClientMaker.call *)

(** What a loop of [extend]s appends does not depend on what was
    gathered before it. *)
Lemma for_extend_acc {A B} (f : A -> result (list B)) (xs : list A) (acc : list B) :
  for_extend f xs acc = (l <- for_extend f xs [] ;; Ok (acc ++ l)%list).
Proof.
  revert acc. induction xs as [|x xs IH]; intros acc; simpl.
  - rewrite app_nil_r. reflexivity.
  - destruct (f x) as [ys|e]; simpl; [|reflexivity].
    rewrite (IH (acc ++ ys)%list), (IH ys).
    destruct (for_extend f xs []) as [l|e]; simpl; [|reflexivity].
    rewrite app_assoc. reflexivity.
Qed.

Section Call.

Variable w : Regions.
Variables service action response_key : string.
Variable jmes_filter : option string.
Variable action_args : pydict json.
Variable client_args : option (pydict json).

Let loop := call_loop w service action response_key jmes_filter action_args
                      client_args.

(** One turn of the loop appends what the region alone gives. *)
Lemma call_loop_cons (region : string) (rest : list string) (results : list json) :
  loop (region :: rest) results
  = (l <- loop [region] [] ;; loop rest (results ++ l)%list).
Proof.
  unfold loop. simpl.
  destruct (region_client w service region client_args) as [c|e]; simpl;
    [|reflexivity].
  destruct (can_paginate c action).
  - destruct jmes_filter as [[|ch f]|].
    + destruct (paginate c action action_args) as [pages|e]; simpl; [|reflexivity].
      rewrite for_extend_acc.
      destruct (for_extend _ pages []) as [l|e]; reflexivity.
    + destruct (paginate_search c action action_args (String ch f)) as [found|e];
        simpl; [|reflexivity].
      rewrite for_extend_acc.
      destruct (for_extend iterate found []) as [l|e]; reflexivity.
    + destruct (paginate c action action_args) as [pages|e]; simpl; [|reflexivity].
      rewrite for_extend_acc.
      destruct (for_extend _ pages []) as [l|e]; reflexivity.
  - destruct (invoke c action action_args) as [r|e]; simpl; [|reflexivity].
    destruct (subscript r response_key) as [v|e]; simpl; [|reflexivity].
    destruct (iterate v) as [more|e]; reflexivity.
Qed.

Lemma call_loop_acc (regions : list string) (results : list json) :
  loop regions results = (l <- loop regions [] ;; Ok (results ++ l)%list).
Proof.
  revert results. induction regions as [|r rs IH]; intros results.
  - unfold loop. simpl. rewrite app_nil_r. reflexivity.
  - rewrite (call_loop_cons r rs results), (call_loop_cons r rs []).
    destruct (loop [r] []) as [l|e]; simpl; [|reflexivity].
    rewrite (IH (results ++ l)%list), (IH l).
    destruct (loop rs []) as [l'|e]; simpl; [|reflexivity].
    rewrite app_assoc. reflexivity.
Qed.

(** The regions are visited in order and their results concatenated. *)
Lemma call_loop_concat (regions : list string) (ls : list (list json)) :
  Forall2 (fun r l => loop [r] [] = Ok l) regions ls ->
  loop regions [] = Ok (concat ls).
Proof.
  induction 1 as [|r l rs ls Hr _ IH].
  - reflexivity.
  - rewrite call_loop_cons, Hr. simpl rbind. rewrite call_loop_acc, IH.
    reflexivity.
Qed.

(** The first region that fails ends the loop with its error. *)
Lemma call_loop_abort (before after : list string) (ls : list (list json))
    (region : string) (e : exn) :
  Forall2 (fun r l => loop [r] [] = Ok l) before ls ->
  loop [region] [] = Raise e ->
  loop (before ++ region :: after) [] = Raise e.
Proof.
  intros Hbefore Hregion. induction Hbefore as [|r l rs ls Hr _ IH].
  - simpl app. rewrite call_loop_cons, Hregion. reflexivity.
  - simpl app. rewrite call_loop_cons, Hr. simpl rbind.
    rewrite call_loop_acc, IH. reflexivity.
Qed.

End Call.

(** A call for one named region runs the loop on that region alone. *)
Lemma ClientMaker_call_one_region (w : Regions) (service action response_key : string)
    (region : string) (jmes_filter : option string)
    (action_args client_args : option (pydict json)) :
  region <> "" ->
  ClientMaker_call w service action response_key false (Some region) jmes_filter
                   action_args client_args
  = call_loop w service action response_key jmes_filter (dict_value action_args)
              client_args [region] [].
Proof.
  intros Hne. unfold ClientMaker_call. rewrite dict_default.
  destruct region as [|c r]; [contradiction | reflexivity].
Qed.

Lemma ClientMaker_call_all_regions (w : Regions) (service action response_key : string)
    (region jmes_filter : option string)
    (action_args client_args : option (pydict json)) (regions : list string) :
  enabled_regions w = Ok regions ->
  ClientMaker_call w service action response_key true region jmes_filter
                   action_args client_args
  = call_loop w service action response_key jmes_filter (dict_value action_args)
              client_args regions [].
Proof.
  intros Hen. unfold ClientMaker_call. rewrite dict_default, Hen. reflexivity.
Qed.

(** X11: called for all regions, [call] returns the concatenation, in
    the order of [enabled_regions], of what it returns when called for
    each of these regions alone; its own [region] argument plays no
    part. *)
Theorem call_all_regions_concat (w : Regions) (service action response_key : string)
    (region jmes_filter : option string)
    (action_args client_args : option (pydict json))
    (regions : list string) (ls : list (list json)) :
  enabled_regions w = Ok regions ->
  Forall2 (fun r l =>
             r <> ""
             /\ ClientMaker_call w service action response_key false (Some r)
                                 jmes_filter action_args client_args = Ok l)
          regions ls ->
  ClientMaker_call w service action response_key true region jmes_filter
                   action_args client_args
  = Ok (concat ls).
Proof.
  intros Hen Heach. rewrite (ClientMaker_call_all_regions _ _ _ _ _ _ _ _ _ Hen).
  apply call_loop_concat.
  clear Hen. induction Heach as [|r l rs ls [Hne Hr] _ IH]; [constructor|].
  constructor; [|exact IH].
  rewrite <- Hr. symmetry. apply ClientMaker_call_one_region, Hne.
Qed.

Lemma call_all_regions_concat_witness :
  ClientMaker_call DemoRegions.regions "ec2" "describe_instances" "Reservations"
                   true None None None None
  = Ok [JStr "i-east"; JStr "i-west"].
Proof.
  apply (call_all_regions_concat DemoRegions.regions "ec2" "describe_instances"
           "Reservations" None None None None
           ["us-east-1"; "eu-west-1"] [[JStr "i-east"]; [JStr "i-west"]]).
  - reflexivity.
  - repeat constructor; discriminate.
Defined.

(** X12: when the call for one enabled region raises and the calls for
    the regions listed before it succeed, the call for all regions raises
    the same error: the results gathered so far are not returned. *)
Theorem call_all_regions_abort (w : Regions) (service action response_key : string)
    (region jmes_filter : option string)
    (action_args client_args : option (pydict json))
    (before after : list string) (ls : list (list json))
    (failing : string) (e : exn) :
  enabled_regions w = Ok (before ++ failing :: after)%list ->
  Forall2 (fun r l =>
             r <> ""
             /\ ClientMaker_call w service action response_key false (Some r)
                                 jmes_filter action_args client_args = Ok l)
          before ls ->
  failing <> "" ->
  ClientMaker_call w service action response_key false (Some failing)
                   jmes_filter action_args client_args = Raise e ->
  ClientMaker_call w service action response_key true region jmes_filter
                   action_args client_args
  = Raise e.
Proof.
  intros Hen Heach Hne Hfail.
  rewrite (ClientMaker_call_all_regions _ _ _ _ _ _ _ _ _ Hen).
  apply (call_loop_abort _ _ _ _ _ _ _ _ _ ls).
  - clear Hen. induction Heach as [|r l rs ls' [Hr Hl] _ IH]; [constructor|].
    constructor; [|exact IH].
    rewrite <- Hl. symmetry. apply ClientMaker_call_one_region, Hr.
  - rewrite <- Hfail. symmetry. apply ClientMaker_call_one_region, Hne.
Qed.

Lemma call_all_regions_abort_witness :
  ClientMaker_call DemoRegions.regions_with_closed "ec2" "describe_instances"
                   "Reservations" true None None None None
  = Raise (ClientError "AuthFailure").
Proof.
  apply (call_all_regions_abort DemoRegions.regions_with_closed "ec2"
           "describe_instances" "Reservations" None None None None
           ["us-east-1"] ["eu-west-1"] [[JStr "i-east"]] "ap-east-1").
  - reflexivity.
  - repeat constructor; discriminate.
  - discriminate.
  - reflexivity.
Defined.

Lemma for_extend_pages (response_key : string) (pages : list json)
    (itemss : list (list json)) (acc : list json) :
  Forall2 (fun page items => subscript page response_key = Ok (JList items))
          pages itemss ->
  for_extend (fun data => v <- subscript data response_key ;; iterate v) pages acc
  = Ok (acc ++ concat itemss)%list.
Proof.
  intros Hpages. revert acc.
  induction Hpages as [|page items pages itemss Hp _ IH]; intros acc; simpl.
  - rewrite app_nil_r. reflexivity.
  - rewrite Hp. simpl. rewrite IH, app_assoc. reflexivity.
Qed.

(** X13: for a named region, an action that can be paginated and no JMES
    filter, [call] returns the items found under [response_key] on each
    page, page after page. *)
Theorem call_paginated (w : Regions) (service action response_key region : string)
    (jmes_filter : option string) (action_args client_args : option (pydict json))
    (c : ServiceClient) (pages : list json) (itemss : list (list json)) :
  region <> "" ->
  truthy jmes_filter = false ->
  region_client w service region client_args = Ok c ->
  can_paginate c action = true ->
  paginate c action (dict_value action_args) = Ok pages ->
  Forall2 (fun page items => subscript page response_key = Ok (JList items))
          pages itemss ->
  ClientMaker_call w service action response_key false (Some region) jmes_filter
                   action_args client_args
  = Ok (concat itemss).
Proof.
  intros Hne Hfilter Hclient Hcan Hpaginate Hpages.
  rewrite (ClientMaker_call_one_region _ _ _ _ _ _ _ _ Hne). simpl.
  rewrite Hclient. simpl. rewrite Hcan.
  assert (Hbody :
    (pages <- paginate c action (dict_value action_args) ;;
     for_extend (fun data => v <- subscript data response_key ;; iterate v) pages [])
    = Ok (concat itemss)).
  { rewrite Hpaginate. simpl. apply (for_extend_pages _ _ _ [] Hpages). }
  destruct jmes_filter as [[|ch f]|]; try discriminate; rewrite Hbody; reflexivity.
Qed.

Lemma call_paginated_witness :
  ClientMaker_call DemoRegions.regions "ec2" "describe_instances" "Reservations"
                   false (Some "eu-west-1") None None None
  = Ok [JStr "i-west"].
Proof.
  apply (call_paginated DemoRegions.regions "ec2" "describe_instances"
           "Reservations" "eu-west-1" None None None
           (DemoRegions.ec2 "i-west") [DemoRegions.page "i-west"]
           [[JStr "i-west"]]);
    try reflexivity; [discriminate | repeat constructor].
Defined.

(* ================================================================== *)
(** * More on the Policy Source: SCPs and documents *)

Lemma mmap_describe (c : ClientMaker) (scps : list PolicySummary)
    (contents : list string) :
  Forall2 (fun scp content => describe_policy_Content c (Id scp) = Ok content)
          scps contents ->
  mmap (fun scp =>
          content <~ call (Call_describe_policy (Id scp))
                          (describe_policy_Content c (Id scp)) ;;
          ret (JStr content)) scps
  = (Ok (map JStr contents), map (fun scp => Call_describe_policy (Id scp)) scps).
Proof.
  unfold call.
  induction 1 as [|scp content scps contents Hd _ IH]; [reflexivity|].
  cbn [mmap]. rewrite Hd, IH. unfold mbind, ret. simpl.
  rewrite app_nil_r. reflexivity.
Qed.

(** X14: when the listing and every description succeed,
    [get_scps_for_account] returns the contents of the listed policies, as
    texts and in the order of the listing, after sending the listing
    request for the given target and then one description request per
    listed policy, in that order. *)
Theorem get_scps_for_account_ok (n : option string) (c : ClientMaker)
    (scps : list PolicySummary) (contents : list string) :
  list_policies_for_target c n = Ok scps ->
  Forall2 (fun scp content => describe_policy_Content c (Id scp) = Ok content)
          scps contents ->
  get_scps_for_account n c
  = (Ok (map JStr contents),
     Call_list_policies_for_target n
       :: map (fun scp => Call_describe_policy (Id scp)) scps).
Proof.
  intros Hlist Hdesc. unfold get_scps_for_account. rewrite Hlist.
  unfold call at 1. unfold mbind at 1. cbv beta.
  rewrite (mmap_describe c scps contents Hdesc). reflexivity.
Qed.

Lemma get_scps_for_account_ok_witness :
  get_scps_for_account (Some "123456789012") Demo.account
  = (Ok [JStr Demo.scp_text],
     [Call_list_policies_for_target (Some "123456789012");
      Call_describe_policy "p-examplescp"]).
Proof.
  apply (get_scps_for_account_ok (Some "123456789012") Demo.account
           [mkPolicySummary "p-examplescp"] [Demo.scp_text]).
  - reflexivity.
  - repeat constructor.
Defined.

(** X15: when the description of a listed policy fails and those of the
    policies listed before it succeed, [get_scps_for_account] raises that
    error; the policies listed after it are not asked for, and no partial
    list is returned. *)
Theorem get_scps_for_account_describe_fails (n : option string) (c : ClientMaker)
    (before after : list PolicySummary) (bad : PolicySummary)
    (contents : list string) (e : exn) :
  list_policies_for_target c n = Ok (before ++ bad :: after)%list ->
  Forall2 (fun scp content => describe_policy_Content c (Id scp) = Ok content)
          before contents ->
  describe_policy_Content c (Id bad) = Raise e ->
  get_scps_for_account n c
  = (Raise e,
     Call_list_policies_for_target n
       :: (map (fun scp => Call_describe_policy (Id scp)) before
           ++ [Call_describe_policy (Id bad)])%list).
Proof.
  intros Hlist Hdesc Hbad. unfold get_scps_for_account, call. rewrite Hlist.
  unfold mbind at 1.
  assert (Hmap :
    mmap (fun scp =>
            content <~ (describe_policy_Content c (Id scp),
                        [Call_describe_policy (Id scp)]) ;;
            ret (JStr content)) (before ++ bad :: after)%list
    = (Raise e,
       (map (fun scp => Call_describe_policy (Id scp)) before
        ++ [Call_describe_policy (Id bad)])%list)).
  { clear Hlist. induction Hdesc as [|scp content scps contents Hd _ IH];
      cbn [mmap app].
    - rewrite Hbad. reflexivity.
    - rewrite Hd, IH. unfold mbind, ret. simpl. reflexivity. }
  rewrite Hmap. reflexivity.
Qed.

Lemma get_scps_for_account_describe_fails_witness :
  get_scps_for_account (Some "123456789012") DemoRegions.account_with_stale_scp
  = (Raise (ClientError "PolicyNotFoundException"),
     [Call_list_policies_for_target (Some "123456789012");
      Call_describe_policy "p-examplescp"; Call_describe_policy "p-deleted"]).
Proof.
  apply (get_scps_for_account_describe_fails (Some "123456789012")
           DemoRegions.account_with_stale_scp
           [mkPolicySummary "p-examplescp"] [mkPolicySummary "p-other"]
           (mkPolicySummary "p-deleted") [Demo.scp_text]).
  - reflexivity.
  - repeat constructor.
  - reflexivity.
Defined.

(** X16: when both collections of a user, role or group can be listed
    and every document can be read, [get_policy_documents_for_resource]
    returns the documents of the attached policies in the order of that
    collection, followed by the inline policy documents in theirs. *)
Theorem policy_documents_attached_then_inline
    (resource : IamEntity) (ps qs : list IamPolicy) (ds es : list json) :
  attached_policies resource = Ok ps ->
  inline_policies resource = Ok qs ->
  Forall2 (fun p d => document p = Ok d) ps ds ->
  Forall2 (fun p d => document p = Ok d) qs es ->
  get_policy_documents_for_resource resource = Ok (ds ++ es)%list.
Proof. apply get_policy_documents_for_resource_order. Qed.

Lemma policy_documents_attached_then_inline_witness :
  get_policy_documents_for_resource Demo.MyRole
  = Ok [merged [Demo.allow_statement "ec2:*"];
        merged [Demo.allow_statement "s3:GetObject"]].
Proof.
  apply (policy_documents_attached_then_inline Demo.MyRole
           [Demo.policy_of [Demo.allow_statement "ec2:*"]]
           [Demo.policy_of [Demo.allow_statement "s3:GetObject"]]
           [merged [Demo.allow_statement "ec2:*"]]
           [merged [Demo.allow_statement "s3:GetObject"]]);
    try reflexivity; repeat constructor.
Defined.

(* ================================================================== *)
(** * More on the Policy Merger *)

Section MergerMore.

Context `{Json}.

Lemma merge_loop_acc (ps : list json) (acc : list json) :
  merge_loop ps acc = (s <- merge_loop ps [] ;; Ok (acc ++ s)%list).
Proof.
  revert acc. induction ps as [|p ps IH]; intros acc; simpl.
  - rewrite app_nil_r. reflexivity.
  - destruct (match p with JStr s => json_loads s | _ => Ok p end) as [q|e];
      simpl; [|reflexivity].
    destruct (subscript q "Statement") as [st|e]; simpl; [|reflexivity].
    destruct (iterate st) as [more|e]; simpl; [|reflexivity].
    rewrite (IH (acc ++ more)%list), (IH more).
    destruct (merge_loop ps []) as [s|e]; simpl; [|reflexivity].
    rewrite app_assoc. reflexivity.
Qed.

Lemma merge_loop_app (ps qs : list json) (acc : list json) :
  merge_loop (ps ++ qs) acc = (s <- merge_loop ps acc ;; merge_loop qs s).
Proof.
  revert acc. induction ps as [|p ps IH]; intros acc; simpl; [reflexivity|].
  destruct (match p with JStr s => json_loads s | _ => Ok p end) as [q|e];
    simpl; [|reflexivity].
  destruct (subscript q "Statement") as [st|e]; simpl; [|reflexivity].
  destruct (iterate st) as [more|e]; simpl; [|reflexivity].
  apply IH.
Qed.

Lemma merge_policy_dicts_inv (ps : list json) (m : json) :
  merge_policy_dicts ps = Ok m ->
  exists stmts, merge_loop ps [] = Ok stmts /\ m = merged stmts.
Proof.
  unfold merge_policy_dicts.
  destruct (merge_loop ps []) as [stmts|e]; simpl; [|discriminate].
  intros [= <-]. eauto.
Qed.

Lemma merge_loop_merged (stmts : list json) (rest acc : list json) :
  merge_loop (merged stmts :: rest) acc = merge_loop rest (acc ++ stmts)%list.
Proof. reflexivity. Qed.

(** X17: merging in stages gives what merging at once gives: when two
    lists of policies merge into [m1] and [m2], merging the two results
    is the same as merging the concatenated lists; and merging a merged
    document alone gives it back. *)
Theorem merge_policy_dicts_staged (ps qs : list json) (m1 m2 : json) :
  merge_policy_dicts ps = Ok m1 ->
  merge_policy_dicts qs = Ok m2 ->
  merge_policy_dicts [m1; m2] = merge_policy_dicts (ps ++ qs)
  /\ merge_policy_dicts [m1] = Ok m1.
Proof.
  intros H1 H2.
  apply merge_policy_dicts_inv in H1 as (s1 & Hs1 & ->).
  apply merge_policy_dicts_inv in H2 as (s2 & Hs2 & ->).
  split.
  - unfold merge_policy_dicts.
    rewrite merge_loop_app, Hs1. simpl rbind at 2.
    rewrite (merge_loop_acc qs s1), Hs2.
    rewrite !merge_loop_merged. reflexivity.
  - unfold merge_policy_dicts. rewrite merge_loop_merged. reflexivity.
Qed.

(** X18: the first unreadable document ends the merge with its error,
    whatever follows it: text that does not deserialize raises the
    decoder's error, a mapping without a Statement entry raises
    [KeyError], any other value raises [TypeError]. *)
Theorem merge_policy_dicts_unreadable
    (ps : list json) (sts : list (list json)) (p : json) (rest : list json) (e : exn) :
  Forall2 is_policy_document ps sts ->
  unreadable p e ->
  merge_policy_dicts (ps ++ p :: rest) = Raise e.
Proof.
  intros Hps Hbad. unfold merge_policy_dicts.
  rewrite merge_loop_app, (merge_loop_concat ps sts Hps). simpl.
  destruct Hbad as [(s & -> & Hloads) | (Hnot & Hsub)].
  - rewrite Hloads. reflexivity.
  - destruct p; simpl in Hsub |- *;
      try (injection Hsub as <-; reflexivity);
      try (rewrite Hsub; reflexivity).
    exfalso. eapply Hnot. reflexivity.
Qed.

(** X19: a document whose Statement entry is one mapping, not a
    sequence, contributes the keys of that mapping as statements: the
    statement object itself does not reach the merged document. *)
Theorem merge_policy_dicts_single_statement
    (ps qs : list json) (sts sts' : list (list json))
    (entries stmt : list (string * json)) :
  Forall2 is_policy_document ps sts ->
  Forall2 is_policy_document qs sts' ->
  dict_get entries "Statement" = Ok (JDict stmt) ->
  merge_policy_dicts (ps ++ JDict entries :: qs)
  = Ok (merged (concat sts ++ map (fun kv => JStr (fst kv)) stmt ++ concat sts')%list).
Proof.
  intros Hps Hqs Hstmt. unfold merge_policy_dicts.
  rewrite merge_loop_app, (merge_loop_concat ps sts Hps). simpl.
  rewrite Hstmt. simpl. rewrite (merge_loop_concat qs sts' Hqs).
  simpl. rewrite <- app_assoc. reflexivity.
Qed.

End MergerMore.

Lemma merge_policy_dicts_staged_witness :
  @merge_policy_dicts Demo.json_module
    [merged [Demo.allow_statement "s3:*"]; merged [Demo.deny_statement]]
  = @merge_policy_dicts Demo.json_module
      ([merged [Demo.allow_statement "s3:*"]] ++ [JStr Demo.scp_text]).
Proof.
  apply (@merge_policy_dicts_staged Demo.json_module
           [merged [Demo.allow_statement "s3:*"]] [JStr Demo.scp_text]);
    reflexivity.
Defined.

Lemma merge_policy_dicts_unreadable_witness :
  @merge_policy_dicts Demo.json_module
    ([] ++ JDict [("Version", JStr "2012-10-17")] :: [JStr Demo.scp_text])
  = Raise (KeyError "Statement").
Proof.
  apply (@merge_policy_dicts_unreadable Demo.json_module [] []).
  - constructor.
  - right. split; [discriminate | reflexivity].
Defined.

Lemma merge_policy_dicts_single_statement_witness :
  @merge_policy_dicts Demo.json_module
    ([] ++ JDict [("Version", JStr "2012-10-17");
                  ("Statement", Demo.deny_statement)] :: [])
  = Ok (merged [JStr "Effect"; JStr "Action"; JStr "Resource"]).
Proof.
  apply (@merge_policy_dicts_single_statement Demo.json_module [] [] [] []
           [("Version", JStr "2012-10-17"); ("Statement", Demo.deny_statement)]
           [("Effect", JStr "Deny"); ("Action", JStr "iam:*"); ("Resource", JStr "*")]);
    [constructor | constructor | reflexivity].
Defined.

(* ================================================================== *)
(** * More on the Policy Container *)

(** Only the resource types user and role have a resource. *)
Lemma arn_to_iam_resource_unsupported (a : ARN) (c : ClientMaker) :
  resource_type a <> Some "user" ->
  resource_type a <> Some "role" ->
  arn_to_iam_resource a c = Raise NotImplementedError.
Proof.
  intros Huser Hrole. unfold arn_to_iam_resource.
  destruct (resource_type a) as [s|]; [|reflexivity].
  repeat match goal with
         | |- Raise _ = Raise _ => reflexivity
         | |- Ok _ = Raise _ => exfalso; (apply Huser + apply Hrole); reflexivity
         | |- context [match ?x with _ => _ end] => is_var x; destruct x
         end.
Qed.

(** X20: for a reference whose resource type is neither user nor role,
    the construction of a Policy Container raises [NotImplementedError]
    before any request is sent, and so does the construction of a
    Simulated Dispatch Client for a caller with such a reference (an
    assumed-role session, for one). *)
Theorem unsupported_principal `{Json} (a : ARN) (c : ClientMaker)
    (collect_scps : bool) (service : string) :
  resource_type a <> Some "user" ->
  resource_type a <> Some "role" ->
  PolicyContainer_init a c collect_scps = (Raise NotImplementedError, [])
  /\ (caller_arn c = Ok a ->
      SimulatedClient_init service collect_scps c = (Raise NotImplementedError, [])).
Proof.
  intros Huser Hrole.
  assert (Hinit : PolicyContainer_init a c collect_scps
                  = (Raise NotImplementedError, [])).
  { unfold PolicyContainer_init.
    rewrite (arn_to_iam_resource_unsupported a c Huser Hrole). reflexivity. }
  split; [exact Hinit|].
  intros Hcaller. unfold SimulatedClient_init. rewrite Hcaller.
  unfold lift, mbind. rewrite Hinit. reflexivity.
Qed.

Lemma unsupported_principal_witness :
  @SimulatedClient_init Demo.json_module "ec2" false DemoRegions.assumed_role_session
  = (Raise NotImplementedError, []).
Proof.
  apply (@unsupported_principal Demo.json_module
           (mkARN (Some "arn") (Some "aws") (Some "sts") (Some "")
                  (Some "123456789012") (Some "assumed-role") (Some "MyRole/build"))
           DemoRegions.assumed_role_session false "ec2");
    [discriminate | discriminate | reflexivity].
Defined.

(** X21: with SCP collection switched off, the construction sends no
    request to Organizations, whatever its outcome. *)
Theorem PolicyContainer_init_no_scp_request `{Json} (a : ARN) (c : ClientMaker) :
  Forall (fun e => ~ is_organizations_request e)
         (snd (PolicyContainer_init a c false)).
Proof.
  apply Forall_forall. intros e.
  unfold PolicyContainer_init. cbv zeta. intros Hin.
  do 4 trace_step Hin.
  trace_step Hin.
  { match goal with
    | Hb : In _ (snd (match ?boundary with _ => _ end)) |- _ =>
        destruct boundary as [b|]; [|simpl in Hb; contradiction]
    end.
    trace_step Hin. simpl in Hin. contradiction. }
  trace_step Hin.
  trace_step Hin.
  { destruct (0 <? _)%nat; [|simpl in Hin; contradiction].
    trace_step Hin.
    - simpl in Hin. destruct Hin as [<-|[]]. intros [].
    - simpl in Hin. contradiction. }
  simpl in Hin. contradiction.
Qed.


(** A container is built only after every step before it answered. *)
Lemma PolicyContainer_init_inv `{Json} (a : ARN) (c : ClientMaker)
    (collect_scps : bool) (pc : PolicyContainer) (t : list event) :
  PolicyContainer_init a c collect_scps = (Ok pc, t) ->
  arn pc = a /\ cm pc = c
  /\ (negative_policies pc = None \/ exists m, negative_policies pc = Some [m])
  /\ (collect_scps = true ->
      (exists scps, list_policies_for_target c (account_id a) = Ok scps)
      /\ (truthy (account_id a) = false -> exists n, account_number c = Ok n)).
Proof.
  intros Hinit. unfold PolicyContainer_init in Hinit. cbv zeta in Hinit.
  do 7 invert_step Hinit.
  apply ret_Ok_inv in Hinit as [<- _]. cbn [arn cm negative_policies].
  split; [reflexivity|]. split; [reflexivity|]. split; [|intros ->; split].
  - destruct (0 <? _)%nat.
    + apply mbind_Ok_inv in Hstep5 as (m & ta & tb & _ & Hret & _).
      apply ret_Ok_inv in Hret as [<- _]. eauto.
    + apply ret_Ok_inv in Hstep5 as [<- _]. auto.
  - apply mbind_Ok_inv in Hstep4 as (n & ta & tb & _ & Hrest & _).
    cbv beta in Hrest.
    apply mbind_Ok_inv in Hrest as (scps & tc & td & Hscps & _ & _).
    unfold get_scps_for_account in Hscps.
    apply mbind_Ok_inv in Hscps as (l & te & tf & Hlist & _ & _).
    unfold call in Hlist. injection Hlist as Hlist _. eauto.
  - intros Hfalsy.
    apply mbind_Ok_inv in Hstep4 as (n & ta & tb & Hfallback & _ & _).
    rewrite Hfalsy in Hfallback.
    apply mbind_Ok_inv in Hfallback as (m & tc & td & Hn & _ & _).
    apply lift_Ok_inv in Hn as [Hn _]. eauto.
Qed.

(** X22: with SCP collection switched on, a failure of the Organizations
    listing for the reference's account field is never turned into a
    container without SCPs: the construction does not succeed.  Nor does
    it succeed when the account field is empty and the caller's account
    number cannot be resolved. *)
Theorem PolicyContainer_init_scp_failure `{Json} (a : ARN) (c : ClientMaker)
    (e : exn) :
  list_policies_for_target c (account_id a) = Raise e
  \/ (truthy (account_id a) = false /\ account_number c = Raise e) ->
  forall pc t, PolicyContainer_init a c true <> (Ok pc, t).
Proof.
  intros Hfail pc t Hinit.
  destruct (PolicyContainer_init_inv a c true pc t Hinit)
    as (_ & _ & _ & Hscps).
  destruct (Hscps eq_refl) as [(scps & Hlist) Hnumber].
  destruct Hfail as [Hfail | [Hfalsy Hfail]].
  - congruence.
  - destruct (Hnumber Hfalsy) as (n & Hn). congruence.
Qed.

Lemma PolicyContainer_init_scp_failure_witness :
  list_policies_for_target Demo.account (account_id Demo.user_arn_no_account)
  = Raise (ClientError "InvalidInputException")
  /\ forall pc t,
       @PolicyContainer_init Demo.json_module Demo.user_arn_no_account
                             Demo.account true
       <> (Ok pc, t).
Proof.
  split; [reflexivity|].
  apply (@PolicyContainer_init_scp_failure Demo.json_module
           Demo.user_arn_no_account Demo.account
           (ClientError "InvalidInputException")).
  left. reflexivity.
Defined.




(** X24: [simulate] returns the decision of the first evaluation result
    and looks at no other; it raises [IndexError] when the oracle returns
    no evaluation result, and the oracle's own error when it raises. *)
Theorem PolicyContainer_simulate_decision `{Json} (pc : PolicyContainer)
    (actions : list string) (args : list (string * string)) (request : SimRequest) :
  snd (PolicyContainer_simulate pc actions args)
  = [Call_simulate_custom_policy request] ->
  fst (PolicyContainer_simulate pc actions args)
  = match simulate_custom_policy (cm pc) request with
    | Ok (first :: _) => Ok (EvalDecision first)
    | Ok [] => Raise IndexError
    | Raise e => Raise e
    end.
Proof.
  unfold PolicyContainer_simulate.
  match goal with
  | |- context [Call_simulate_custom_policy ?r] => set (sent := r)
  end.
  destruct (repeats_keyword args); [discriminate|].
  unfold call, mbind.
  destruct (simulate_custom_policy (cm pc) sent) as [results|e] eqn:Esim.
  - destruct results as [|first rest]; cbn [getitem nth_error lift ret fst snd app];
      intros [= <-]; rewrite Esim; reflexivity.
  - cbn [fst snd]. intros [= <-]. rewrite Esim. reflexivity.
Qed.

Lemma PolicyContainer_simulate_decision_witness :
  fst (@PolicyContainer_simulate Demo.json_module
         (mkPolicyContainer [] None Demo.account Demo.user_arn)
         ["s3:GetObject"; "s3:PutObject"] [])
  = Ok "allowed".
Proof.
  apply (@PolicyContainer_simulate_decision Demo.json_module
           (mkPolicyContainer [] None Demo.account Demo.user_arn)
           ["s3:GetObject"; "s3:PutObject"] []
           (mkSimRequest [] ["s3:GetObject"; "s3:PutObject"] []
                         "arn:aws:iam::123456789012:user/alice" [])).
  reflexivity.
Defined.

(* ================================================================== *)
(** * More on the Simulated Dispatch Client *)

Lemma mapping_get_missing (mapping : list (string * string)) (key : string) :
  (forall v, ~ In (key, v) mapping) -> mapping_get mapping key = Raise (KeyError key).
Proof.
  induction mapping as [|[k v] mapping IH]; simpl; intros Hnot; [reflexivity|].
  destruct (String.eqb_spec k key) as [->|_].
  - exfalso. apply (Hnot v). auto.
  - apply IH. intros v' Hin. apply (Hnot v'). auto.
Qed.

(** X25: a dispatched method whose name is not in the service's mapping
    raises [KeyError] with that name, and no simulate request is sent. *)
Theorem simulate_api_unknown `{Json} `{Botocore} (self : SimulatedClient)
    (operation : string) (mapping : list (string * string)) :
  method_to_api_mapping (_service self) = Ok mapping ->
  (forall method, ~ In (operation, method) mapping) ->
  simulate_api self operation = (Raise (KeyError operation), []).
Proof.
  intros Hmap Hnot. unfold simulate_api. rewrite Hmap.
  unfold lift at 1. unfold mbind at 1.
  rewrite (mapping_get_missing mapping operation Hnot). reflexivity.
Qed.

Lemma simulate_api_unknown_witness :
  @simulate_api Demo.json_module Demo.botocore
    (mkSimulatedClient "ec2" Demo.account
       (mkPolicyContainer [] None Demo.account Demo.user_arn))
    "launch_rockets"
  = (Raise (KeyError "launch_rockets"), []).
Proof.
  apply (@simulate_api_unknown Demo.json_module Demo.botocore
           (mkSimulatedClient "ec2" Demo.account
              (mkPolicyContainer [] None Demo.account Demo.user_arn))
           "launch_rockets"
           [("describe_instances", "DescribeInstances");
            ("run_instances", "RunInstances")]).
  - reflexivity.
  - intros method Hin. simpl in Hin.
    destruct Hin as [[=]|[[=]|[]]].
Defined.

(** Every simulate request of a dispatched call names the container's
    reference as caller. *)
Lemma simulate_api_caller `{Json} `{Botocore} (self : SimulatedClient)
    (operation : string) (request : SimRequest) :
  In (Call_simulate_custom_policy request) (snd (simulate_api self operation)) ->
  CallerArn request = ARN_str (arn (_pc self)).
Proof.
  unfold simulate_api. intros Hin.
  trace_step Hin. trace_step Hin.
  match type of Hin with
  | In _ (snd (PolicyContainer_simulate ?pc ?actions ?args)) =>
      destruct (PolicyContainer_simulate_request pc actions args eq_refl)
        as (r & Htrace & _ & Hcaller)
  end.
  rewrite Htrace in Hin. destruct Hin as [[= <-]|[]]. exact Hcaller.
Qed.

(** X26: a Simulated Dispatch Client built for a caller whose ARN string
    has six colon-separated parts, the sixth being a lower-case resource
    type, a slash and the resource id, names exactly that string as the
    caller in every simulate request it sends. *)
Theorem SimulatedClient_caller `{Json} `{Botocore} (service : string)
    (collect_scps : bool) (c : ClientMaker) (sc : SimulatedClient) (t : list event)
    (s rt rid : string) (operation : string) (request : SimRequest) :
  SimulatedClient_init service collect_scps c = (Ok sc, t) ->
  caller_arn_str c = Ok s ->
  List.length (split ":" s) = 6%nat ->
  nth_error (split ":" s) 5 = Some (rt ++ "/" ++ rid) ->
  contains "/" rt = false ->
  lower rt = rt ->
  In (Call_simulate_custom_policy request) (snd (simulate_api sc operation)) ->
  CallerArn request = s.
Proof.
  intros Hinit Hstr Hlen Hnth Hrt Hlower Hin.
  apply simulate_api_caller in Hin. rewrite Hin. clear Hin.
  unfold SimulatedClient_init in Hinit.
  apply mbind_Ok_inv in Hinit as (a & ta & tb & Hcaller & Hinit & _).
  apply lift_Ok_inv in Hcaller as [Hcaller _].
  apply mbind_Ok_inv in Hinit as (pc & tc & td & Hpc & Hret & _).
  apply ret_Ok_inv in Hret as [<- _]. cbn [_pc].
  destruct (PolicyContainer_init_inv a c collect_scps pc tc Hpc) as (-> & _).
  unfold caller_arn in Hcaller. rewrite Hstr in Hcaller. simpl in Hcaller.
  destruct (length_six _ Hlen) as (p0 & p1 & p2 & p3 & p4 & q & Hparts).
  rewrite Hparts in Hnth. simpl in Hnth. injection Hnth as ->.
  rewrite (from_string_six_slash_parts s p0 p1 p2 p3 p4 rt rid Hparts Hrt)
    in Hcaller.
  injection Hcaller as <-. unfold ARN_str. simpl. rewrite Hlower.
  rewrite <- (join_split ":" s) at 1. rewrite Hparts. reflexivity.
Qed.

Lemma SimulatedClient_caller_witness :
  exists sc t,
    @SimulatedClient_init Demo.json_module "ec2" false Demo.account = (Ok sc, t)
    /\ forall request,
         In (Call_simulate_custom_policy request)
            (snd (@simulate_api Demo.json_module Demo.botocore sc "run_instances")) ->
         CallerArn request = "arn:aws:iam::123456789012:role/MyRole".
Proof.
  eexists. eexists. split; [vm_compute; reflexivity|].
  intros request Hin.
  match type of Hin with
  | In _ (snd (simulate_api ?sc _)) =>
      eapply (@SimulatedClient_caller Demo.json_module Demo.botocore "ec2" false
                Demo.account sc _ "arn:aws:iam::123456789012:role/MyRole"
                "role" "MyRole" "run_instances" request);
        [reflexivity | reflexivity | reflexivity | reflexivity | reflexivity
        | reflexivity | exact Hin]
  end.
Defined.
